(** * md2pdf-reporter: a shallow embedding of [reporter.py]

    The program is a thin command-line wrapper: [init] copies a Markdown
    template into an output directory and stamps three metadata
    placeholders; [generate] assembles a converter command line, runs it,
    and optionally archives the PDF and prints an MD5 digest.

    Modelling choices.
    - Python [str] values and file contents are Rocq [string]s.  A file's
      content is the character sequence its bytes decode to under the
      locale's codec; the codec itself is not modelled.
    - The platform is POSIX: paths follow [PurePosixPath], text files are
      read with universal newlines and written with ["\n"] kept as is.
    - The file system is a finite map from normalised path strings to
      nodes; symbolic links and [..] resolution are not modelled.
    - Permissions: the process is the unprivileged owner of the files it
      reaches; it may read every file and create entries in every
      directory.  The write permission of a regular file is part of its
      node: it decides whether the process may write the file, and
      [shutil.copy] copies it along with the content.
    - The strings of the command line (config path, template, input,
      output directory) come from the argument vector of the process
      and hold no NUL character; the values of the config may, and
      [subprocess.run] refuses them.
    - External programs, the YAML parser, MD5 and [repr] of containers are
      parameters of the development. *)

From Stdlib Require Import ZArith Ascii String DecimalString.
From stdpp Require Import gmap strings list fin_maps.

(** ** Strings *)

Module Str.

(** [s.startswith(p)] *)
Fixpoint startswith (p s : string) : bool :=
  match p, s with
  | EmptyString, _ => true
  | String _ _, EmptyString => false
  | String a p', String b s' => if Ascii.eqb a b then startswith p' s' else false
  end.

(** [sub in s] *)
Fixpoint contains (sub s : string) : bool :=
  match s with
  | EmptyString => startswith sub EmptyString
  | String _ s' => startswith sub s || contains sub s'
  end.

(** [c in s] for a character [c] *)
Fixpoint mem (c : ascii) (s : string) : bool :=
  match s with
  | EmptyString => false
  | String x s' => Ascii.eqb x c || mem c s'
  end.

(** The scanning loop of [str.replace] for a non-empty [old]: [skip]
    counts the characters of the occurrence just matched that are still
    to be passed over. *)
Fixpoint replace_from (skip : nat) (old new s : string) : string :=
  match s with
  | EmptyString => EmptyString
  | String c s' =>
      match skip with
      | S k => replace_from k old new s'
      | O =>
          if startswith old s
          then new +:+ replace_from (String.length old - 1) old new s'
          else String c (replace_from 0 old new s')
      end
  end.

(** With an empty [old], [str.replace] puts [new] before every character
    and at the end. *)
Fixpoint intersperse (new s : string) : string :=
  match s with
  | EmptyString => new
  | String c s' => new +:+ String c (intersperse new s')
  end.

(** [s.replace(old, new)] *)
Definition replace (old new s : string) : string :=
  match old with
  | EmptyString => intersperse new s
  | String _ _ => replace_from 0 old new s
  end.

(** [sep.join(xs)] *)
Fixpoint join (sep : string) (xs : list string) : string :=
  match xs with
  | [] => EmptyString
  | [x] => x
  | x :: xs' => x +:+ sep +:+ join sep xs'
  end.

(** [s.split(sep)] for a one-character separator; never the empty list. *)
Fixpoint split (sep : ascii) (s : string) : list string :=
  match s with
  | EmptyString => [EmptyString]
  | String c s' =>
      if Ascii.eqb c sep then EmptyString :: split sep s'
      else match split sep s' with
           | [] => [String c EmptyString]
           | x :: xs => String c x :: xs
           end
  end.

(** [s.rfind(".")], as the length of the part before the last dot. *)
Fixpoint rfind_dot (s : string) : option nat :=
  match s with
  | EmptyString => None
  | String c s' =>
      match rfind_dot s' with
      | Some i => Some (S i)
      | None => if Ascii.eqb c "." then Some 0 else None
      end
  end.

(** [s[:n]] *)
Fixpoint take (n : nat) (s : string) : string :=
  match n, s with
  | S k, String c s' => String c (take k s')
  | _, _ => EmptyString
  end.

End Str.

(** ** Python values

    What [yaml.safe_load] can return.  [PBytes] is what a [!!binary]
    node loads as.  [PObj] stands for every object outside the listed
    shapes (floats, timestamps, sets), none of which is a string, bytes,
    a path or a mapping: the program only ever observes its truth value
    and its text. *)

#[local] Set Warnings "-register-all".
Inductive pyval : Type :=
| PNone
| PBool (b : bool)
| PInt (n : Z)
| PStr (s : string)
| PBytes (b : string)
| PList (xs : list pyval)
| PDict (items : list (pyval * pyval))
| PObj (truth : bool).

Inductive exn : Type :=
| KeyError (key : string)
| TypeError
| AttributeError
| FileNotFoundError
| FileExistsError
| NotADirectoryError
| IsADirectoryError
| SameFileError
| PermissionError
| ValueError
| CalledProcessError (returncode : Z)
| YAMLError
| SystemExit (code : Z).

(** A computation that may raise. *)
Definition result (A : Type) : Type := exn + A.

(** Lookup of a string key among the items of a dict; a key of another
    type never equals a string. *)
Fixpoint dict_lookup (items : list (pyval * pyval)) (k : string) : option pyval :=
  match items with
  | [] => None
  | (PStr k', v) :: rest => if String.eqb k' k then Some v else dict_lookup rest k
  | _ :: rest => dict_lookup rest k
  end.

(** [v[k]] for a string [k] *)
Definition subscript (v : pyval) (k : string) : result pyval :=
  match v with
  | PDict items =>
      match dict_lookup items k with
      | Some x => inr x
      | None => inl (KeyError k)
      end
  | _ => inl TypeError
  end.

(** [v.get(k, default)] *)
Definition get (v : pyval) (k : string) (default : pyval) : result pyval :=
  match v with
  | PDict items =>
      match dict_lookup items k with
      | Some x => inr x
      | None => inr default
      end
  | _ => inl AttributeError
  end.

(** [bool(v)] *)
Definition truthy (v : pyval) : bool :=
  match v with
  | PNone => false
  | PBool b => b
  | PInt n => negb (Z.eqb n 0)
  | PStr s => negb (String.eqb s "")
  | PBytes b => negb (String.eqb b "")
  | PList xs => match xs with [] => false | _ => true end
  | PDict items => match items with [] => false | _ => true end
  | PObj t => t
  end.

(** ** Dates *)

Record date : Type := { year : nat; month : nat; day : nat }.

Definition decimal (n : nat) : string := NilZero.string_of_uint (Nat.to_uint n).

Fixpoint zeros (n : nat) : string :=
  match n with
  | O => ""
  | S k => String "0" (zeros k)
  end.

(** ["%0<width>d"] *)
Definition zero_pad (width n : nat) : string :=
  let s := decimal n in zeros (width - String.length s) +:+ s.

(** [str(d)], the ISO form [YYYY-MM-DD]. *)
Definition isoformat (d : date) : string :=
  zero_pad 4 (year d) +:+ "-" +:+ zero_pad 2 (month d) +:+ "-" +:+ zero_pad 2 (day d).

(** ** Paths ([pathlib.PurePosixPath]) *)

Record PurePath : Type := { root : string; parts : list string }.

Definition is_component (x : string) : bool :=
  negb (String.eqb x "") && negb (String.eqb x ".").

(** The root of a path string: two leading slashes are kept apart from
    one or from three and more. *)
Definition splitroot (s : string) : string :=
  match s with
  | String "/" (String "/" (String "/" _)) => "/"
  | String "/" (String "/" _) => "//"
  | String "/" _ => "/"
  | _ => ""
  end.

(** [Path(s)] *)
Definition Path (s : string) : PurePath :=
  {| root := splitroot s; parts := List.filter is_component (Str.split "/" s) |}.

(** [str(p)] *)
Definition path_str (p : PurePath) : string :=
  match root p, parts p with
  | EmptyString, [] => "."
  | r, ps => r +:+ Str.join "/" ps
  end.

(** [p / s] for a string [s]: an absolute right operand replaces [p]. *)
Definition joinpath (p : PurePath) (s : string) : PurePath :=
  let q := Path s in
  match root q with
  | EmptyString => {| root := root p; parts := parts p ++ parts q |}
  | _ => q
  end.

(** [p / v]: anything but a string is refused. *)
Definition truediv (p : PurePath) (v : pyval) : result PurePath :=
  match v with
  | PStr s => inr (joinpath p s)
  | _ => inl TypeError
  end.

(** [p.name] *)
Definition name (p : PurePath) : string := List.last (parts p) "".

(** [p.stem] *)
Definition stem (p : PurePath) : string :=
  let n := name p in
  match Str.rfind_dot n with
  | Some i => if (0 <? i) && (i <? String.length n - 1) then Str.take i n else n
  | None => n
  end.

(** [p.parent] *)
Definition parent (p : PurePath) : PurePath :=
  {| root := root p; parts := List.removelast (parts p) |}.

(** ** Text files *)

Definition LF : ascii := "010".
Definition CR : ascii := "013".
Definition newline : string := String LF "".

(** The double quote character, as a string. *)
Definition dquote : string := String "034" "".

(** Reading in text mode with universal newlines: a carriage return, with
    the line feed that may follow it, becomes one line feed. *)
Fixpoint translate_newlines (after_cr : bool) (s : string) : string :=
  match s with
  | EmptyString => EmptyString
  | String c s' =>
      if Ascii.eqb c CR then String LF (translate_newlines true s')
      else if Ascii.eqb c LF then
        if after_cr then translate_newlines false s'
        else String LF (translate_newlines false s')
      else String c (translate_newlines false s')
  end.

Definition universal_newlines (s : string) : string := translate_newlines false s.

(** ** The file system and the world *)

(** A regular file carries whether the process may write it. *)
Inductive node : Type :=
| File (writable : bool) (content : string)
| Dir.

(** How a child process ended: the program could not be started, or it
    ran, left the file system in some state and returned a status. *)
Inductive completed : Type :=
| NoSuchProgram
| Exited (returncode : Z) (left : gmap string node).

Record World : Type := {
  fs : gmap string node;          (* nodes by normalised path string *)
  stdout : list string;           (* lines printed by the program *)
  spawned : list (list string);   (* command lines handed to [subprocess.run] *)
  clock : date                    (* what [date.today()] reads *)
}.

Definition set_fs (w : World) (m : gmap string node) : World :=
  {| fs := m; stdout := stdout w; spawned := spawned w; clock := clock w |}.

(** A path without components is the current directory or a root. *)
Definition stat (m : gmap string node) (p : PurePath) : option node :=
  match parts p with
  | [] => Some Dir
  | _ => m !! path_str p
  end.

(** ** The monad of the program: state and exceptions *)

Definition M (A : Type) : Type := World -> result A * World.

#[global] Instance M_ret : MRet M := fun A x w => (inr x, w).

#[global] Instance M_bind : MBind M := fun A B f m w =>
  match m w with
  | (inr x, w') => f x w'
  | (inl e, w') => (inl e, w')
  end.

Definition raise {A : Type} (e : exn) : M A := fun w => (inl e, w).

Definition lift {A : Type} (r : result A) : M A := fun w => (r, w).

(** [try: body except <e>: handler] *)
Definition try_except {A : Type} (body : M A) (catches : exn -> bool) (handler : M A) : M A :=
  fun w =>
    match body w with
    | (inl e, w') => if catches e then handler w' else (inl e, w')
    | r => r
    end.

(** Sequencing in [result], for chained lookups. *)
Definition and_then {A B : Type} (r : result A) (f : A -> result B) : result B :=
  match r with
  | inr x => f x
  | inl e => inl e
  end.

Definition print (line : string) : M unit := fun w =>
  (inr tt, {| fs := fs w; stdout := stdout w ++ [line]; spawned := spawned w; clock := clock w |}).

Definition sys_exit {A : Type} (code : Z) : M A := raise (SystemExit code).

Definition today : M date := fun w => (inr (clock w), w).

(** ** Operating-system primitives *)

(** [p.exists()] *)
Definition exists_ (p : PurePath) : M bool := fun w =>
  (inr (match stat (fs w) p with Some _ => true | None => false end), w).

Definition is_dir (m : gmap string node) (p : PurePath) : bool :=
  match stat m p with
  | Some Dir => true
  | _ => false
  end.

Definition is_file (m : gmap string node) (k : string) : bool :=
  match m !! k with
  | Some (File _ _) => true
  | _ => false
  end.

(** The non-empty prefixes of a list, shortest first. *)
Fixpoint prefixes {A : Type} (l : list A) : list (list A) :=
  match l with
  | [] => []
  | x :: l' => [x] :: List.map (cons x) (prefixes l')
  end.

(** The path strings of [p] and its ancestors, outermost first. *)
Definition lineage (p : PurePath) : list string :=
  List.map (fun ps => path_str {| root := root p; parts := ps |}) (prefixes (parts p)).

(** The file system with a directory at each of [keys]. *)
Definition with_dirs (keys : list string) (m : gmap string node) : gmap string node :=
  List.fold_left (fun m k => <[k := Dir]> m) keys m.

(** [p.mkdir(parents=True, exist_ok=True)]: a regular file on the way is
    an error, every missing directory is created. *)
Definition mkdir (p : PurePath) : M unit := fun w =>
  let keys := lineage p in
  if List.existsb (is_file (fs w)) (List.removelast keys) then (inl NotADirectoryError, w)
  else if List.existsb (is_file (fs w)) keys then (inl FileExistsError, w)
  else (inr tt, set_fs w (with_dirs keys (fs w))).

(** A regular file stands where an ancestor of [p] should be. *)
Definition below_file (m : gmap string node) (p : PurePath) : bool :=
  List.existsb (is_file m) (List.removelast (lineage p)).

(** The error of reaching for a path that names nothing: the path runs
    through a regular file, or it is simply not there. *)
Definition missing_error (m : gmap string node) (p : PurePath) : exn :=
  if below_file m p then NotADirectoryError else FileNotFoundError.

(** Opening for reading. *)
Definition open_read (p : PurePath) : M string := fun w =>
  match stat (fs w) p with
  | Some (File _ content) => (inr content, w)
  | Some Dir => (inl IsADirectoryError, w)
  | None => (inl (missing_error (fs w) p), w)
  end.

(** Opening for writing, then writing [content]: a file the process may
    write is truncated and keeps its mode, a new file is created in an
    existing directory. *)
Definition open_write (p : PurePath) (content : string) : M unit := fun w =>
  match stat (fs w) p with
  | Some Dir => (inl IsADirectoryError, w)
  | Some (File true _) => (inr tt, set_fs w (<[path_str p := File true content]> (fs w)))
  | Some (File false _) => (inl PermissionError, w)
  | None =>
      match stat (fs w) (parent p) with
      | Some Dir => (inr tt, set_fs w (<[path_str p := File true content]> (fs w)))
      | Some (File _ _) => (inl NotADirectoryError, w)
      | None => (inl (missing_error (fs w) (parent p)), w)
      end
  end.

(** [os.stat(p).st_mode], as far as modelled: may the process write? *)
Definition st_mode (p : PurePath) : M bool := fun w =>
  match stat (fs w) p with
  | Some (File writable _) => (inr writable, w)
  | Some Dir => (inr true, w)
  | None => (inl (missing_error (fs w) p), w)
  end.

(** [os.chmod(p, mode)] *)
Definition chmod (p : PurePath) (writable : bool) : M unit := fun w =>
  match stat (fs w) p with
  | Some (File _ content) => (inr tt, set_fs w (<[path_str p := File writable content]> (fs w)))
  | Some Dir => (inr tt, w)
  | None => (inl (missing_error (fs w) p), w)
  end.

(** [p.read_text()] *)
Definition read_text (p : PurePath) : M string :=
  content ← open_read p; mret (universal_newlines content).

(** [p.write_text(text)]: on POSIX a line feed is written as it is. *)
Definition write_text (p : PurePath) (text : string) : M unit := open_write p text.

(** [p.read_bytes()] *)
Definition read_bytes (p : PurePath) : M string := open_read p.

(** [shutil.copy(src, dst)]: into [dst] when it is a directory; the same
    file on both sides is refused; the content is copied ([copyfile]),
    then the permission bits ([copymode]). *)
Definition shutil_copy (src dst : PurePath) : M unit := fun w =>
  let dst := if is_dir (fs w) dst then joinpath dst (name src) else dst in
  if String.eqb (path_str src) (path_str dst) then (inl SameFileError, w)
  else (content ← open_read src;
        open_write dst content;;
        mode ← st_mode src;
        chmod dst mode) w.

(** A path string that can only name a directory: it ends in a slash or
    in a [.] component. *)
Definition names_directory (path : string) : bool :=
  let last := List.last (Str.split "/" path) "" in
  String.eqb last "" || String.eqb last ".".

(** [open(path, "r")] on a path string, then reading the text. *)
Definition open_text (path : string) : M string := fun w =>
  match path with
  | EmptyString => (inl FileNotFoundError, w)
  | _ =>
      match stat (fs w) (Path path) with
      | Some (File _ content) =>
          if names_directory path then (inl NotADirectoryError, w)
          else (inr (universal_newlines content), w)
      | Some Dir => (inl IsADirectoryError, w)
      | None => (inl (missing_error (fs w) (Path path)), w)
      end
  end.

(** ** Command-line arguments, after [argparse] *)

Inductive Command : Type :=
| init (template output : string)
| generate (input output : string).

Record Namespace : Type := { config : string; command : Command }.

(** ** The two f-strings of the metadata loop *)

(** [f'{key}: ""'] *)
Definition placeholder (key : string) : string := key +:+ ": " +:+ dquote +:+ dquote.

(** [f'{key}: "{value}"'], with [value] already formatted. *)
Definition stamped (key value : string) : string :=
  key +:+ ": " +:+ dquote +:+ value +:+ dquote.

(** ** The program *)

Section Reporter.

(** [repr] of lists, dicts and other objects, as [str()] shows them. *)
Variable py_repr : pyval -> string.

(** [yaml.safe_load] on the text of a file; [None] when it raises. *)
Variable safe_load : string -> option pyval.

(** What running a command line does to the file system. *)
Variable spawn : list string -> gmap string node -> completed.

(** [hashlib.md5(data).hexdigest()] *)
Variable md5_hexdigest : string -> string.

(** [str(v)], as an f-string formats a value. *)
Definition py_str (v : pyval) : string :=
  match v with
  | PNone => "None"
  | PBool true => "True"
  | PBool false => "False"
  | PInt n => NilZero.string_of_int (Z.to_int n)
  | PStr s => s
  | _ => py_repr v
  end.

(** *** Config *)

Definition load_config (path : string) : M pyval :=
  try_except
    (text ← open_text path;
     match safe_load text with
     | Some cfg => mret cfg
     | None => raise YAMLError
     end)
    (fun e => match e with FileNotFoundError => true | _ => false end)
    (print ("[!] Config file not found: " +:+ path);; sys_exit 1).

(** *** Helpers *)

(** One element of a command line: a string or bytes, without a NUL
    character. *)
Definition argument (v : pyval) : result string :=
  match v with
  | PStr s | PBytes s => if Str.mem "000" s then inl ValueError else inr s
  | _ => inl TypeError
  end.

(** The elements of a command line are converted in order; the first
    one that is refused decides the error. *)
Fixpoint argv (cmd : list pyval) : result (list string) :=
  match cmd with
  | [] => inr []
  | v :: rest =>
      and_then (argument v) (fun s => and_then (argv rest) (fun tl => inr (s :: tl)))
  end.

(** [subprocess.run(cmd, check=True)] *)
Definition run (cmd : list pyval) : M unit := fun w =>
  match argv cmd with
  | inl e => (inl e, w)
  | inr args =>
      let w1 := {| fs := fs w; stdout := stdout w;
                   spawned := spawned w ++ [args]; clock := clock w |} in
      match spawn args (fs w) with
      | NoSuchProgram => (inl FileNotFoundError, w1)
      | Exited rc m =>
          if Z.eqb rc 0 then (inr tt, set_fs w1 m)
          else (inl (CalledProcessError rc), set_fs w1 m)
      end
  end.

(** The [replacements] dict, in insertion order. *)
Definition replacements (cfg : pyval) (d : date) : result (list (string * pyval)) :=
  and_then (and_then (subscript cfg "metadata") (fun md => get md "title" (PStr ""))) (fun title =>
  and_then (and_then (subscript cfg "metadata") (fun md => get md "author" (PStr ""))) (fun author =>
  inr [("title", title); ("author", author); ("date", PStr (isoformat d))])).

(** One turn of the loop:
    [text = text.replace(f'{key}: ""', f'{key}: "{value}"')]. *)
Definition substitute_one (text : string) (kv : string * pyval) : string :=
  let (key, value) := kv in
  Str.replace (placeholder key) (stamped key (py_str value)) text.

Definition substitute (reps : list (string * pyval)) (text : string) : string :=
  List.fold_left substitute_one reps text.

Definition replace_metadata (md_file : PurePath) (cfg : pyval) : M unit :=
  text ← read_text md_file;
  d ← today;
  reps ← lift (replacements cfg d);
  write_text md_file (substitute reps text).

Definition md5sum (file : PurePath) : M string :=
  data ← read_bytes file; mret (md5_hexdigest data).

(** *** Commands *)

Definition init_cmd (template output : string) (cfg : pyval) : M unit :=
  let output := Path output in
  mkdir output;;
  let template_path := Path template in
  found ← exists_ template_path;
  (if negb found
   then print ("[!] Template not found: " +:+ path_str template_path);; sys_exit 1
   else mret tt : M unit);;
  let target := joinpath output (name template_path) in
  shutil_copy template_path target;;
  replace_metadata target cfg;;
  print ("[+] Template copied to " +:+ path_str target);;
  print "[+] Edit the Markdown file, then run `generate`".

(** The converter's command line. *)
Definition pandoc_cmd (input : string) (pdf : PurePath) (cfg : pyval) : result (list pyval) :=
  and_then (subscript cfg "pandoc") (fun pandoc_cfg =>
  and_then (subscript pandoc_cfg "template") (fun template =>
  and_then (subscript pandoc_cfg "highlight_style") (fun highlight_style =>
  and_then (and_then (subscript cfg "paths") (fun paths => subscript paths "resource_path"))
    (fun resource_path =>
  and_then (subscript pandoc_cfg "top_level_division") (fun top_level_division =>
  let cmd :=
    [ PStr "pandoc";
      PStr input;
      PStr "-o"; PStr (path_str pdf);
      PStr "--from"; PStr "markdown+yaml_metadata_block+raw_html";
      PStr "--template"; template;
      PStr "--highlight-style"; highlight_style;
      PStr "--resource-path"; resource_path;
      PStr "--top-level-division"; top_level_division ] in
  and_then (get pandoc_cfg "toc" (PBool false)) (fun toc =>
  and_then
    (if truthy toc
     then and_then (get pandoc_cfg "toc_depth" (PInt 6)) (fun toc_depth =>
          inr (cmd ++ [PStr "--table-of-contents"] ++ [PStr "--toc-depth"; PStr (py_str toc_depth)]))
     else inr cmd) (fun cmd =>
  and_then (get pandoc_cfg "number_sections" (PBool false)) (fun number_sections =>
  inr (if truthy number_sections then cmd ++ [PStr "--number-sections"] else cmd))))))))).

Definition generate_cmd (input output : string) (cfg : pyval) : M unit :=
  let output := Path output in
  mkdir output;;
  pdf ← lift (and_then (and_then (subscript cfg "output") (fun o => subscript o "pdf_name"))
                        (truediv output));
  cmd ← lift (pandoc_cmd input pdf cfg);
  print "[+] Generating PDF...";;
  run cmd;;
  print ("[+] PDF generated: " +:+ path_str pdf);;
  archive_flag ← lift (and_then (subscript cfg "output") (fun o => get o "archive" (PBool false)));
  if truthy archive_flag then
    let archive := joinpath output (stem pdf +:+ ".7z") in
    print "[+] Creating archive...";;
    run [PStr "7z"; PStr "a"; PStr (path_str archive); PStr (path_str pdf)];;
    checksum ← md5sum archive;
    print ("[+] Archive: " +:+ path_str archive);;
    print ("[+] MD5: " +:+ checksum)
  else (mret tt : M unit).

(** *** CLI *)

Definition main (args : Namespace) : M unit :=
  cfg ← load_config (config args);
  match command args with
  | init template output => init_cmd template output cfg
  | generate input output => generate_cmd input output cfg
  end.

(** The status the process ends with: [0] after a normal return, the
    code of [sys.exit], [1] after any other uncaught exception. *)
Definition exit_status (r : result unit) : Z :=
  match r with
  | inr _ => 0
  | inl (SystemExit code) => code
  | inl _ => 1
  end.

End Reporter.

(** * Vocabulary of the statements *)

Definition title_ph : string := placeholder "title".
Definition author_ph : string := placeholder "author".
Definition date_ph : string := placeholder "date".

(** One of the three patterns occurs in [l]. *)
Definition has_placeholder (l : string) : bool :=
  Str.contains title_ph l || Str.contains author_ph l || Str.contains date_ph l.

(** Where [init] puts the copy. *)
Definition init_target (template output : string) : PurePath :=
  joinpath (Path output) (name (Path template)).

(** Nothing is at [k], or a regular file the process may write. *)
Definition writable_or_absent (m : gmap string node) (k : string) : bool :=
  match m !! k with
  | Some Dir | Some (File false _) => false
  | _ => true
  end.

(** What the copy of [init] needs from the file system: the output
    directory can be created, the template is a regular file holding
    [content], and the target is not the template itself, not a
    directory and not a file the process may not write. *)
Definition init_ready_mode (w : World) (template output : string)
    (writable : bool) (content : string) : Prop :=
  List.existsb (is_file (fs w)) (lineage (Path output)) = false
  /\ stat (fs w) (Path template) = Some (File writable content)
  /\ path_str (Path template) <> path_str (init_target template output)
  /\ writable_or_absent (fs w) (path_str (init_target template output)) = true.

(** What a whole run of [init] needs: the same, with a template the
    process may write, as the copy then has the template's mode. *)
Definition init_ready (w : World) (template output content : string) : Prop :=
  init_ready_mode w template output true content.

(** The file system once the output directory exists. *)
Definition made (output : string) (w : World) : gmap string node :=
  with_dirs (lineage (Path output)) (fs w).

(** The world after a run from [w] that left the file system [m],
    printed [lines] and handed [cmds] to [subprocess.run]. *)
Definition after (w : World) (m : gmap string node)
    (lines : list string) (cmds : list (list string)) : World :=
  {| fs := m; stdout := stdout w ++ lines; spawned := spawned w ++ cmds; clock := clock w |}.

(** The PDF path of [generate]: [output / cfg["output"]["pdf_name"]]. *)
Definition pdf_path (output : string) (cfg : pyval) : result PurePath :=
  and_then (and_then (subscript cfg "output") (fun o => subscript o "pdf_name"))
           (truediv (Path output)).

(** The archive path of [generate]: [output / f"{pdf.stem}.7z"]. *)
Definition archive_path (output : string) (pdf : PurePath) : PurePath :=
  joinpath (Path output) (stem pdf +:+ ".7z").

(** The archiver's command line. *)
Definition archive_cmd (output : string) (pdf : PurePath) : list string :=
  ["7z"; "a"; path_str (archive_path output pdf); path_str pdf].

(** [cfg["output"].get("archive", False)] *)
Definition archive_flag (cfg : pyval) : result pyval :=
  and_then (subscript cfg "output") (fun o => get o "archive" (PBool false)).

(** [cfg[section][key]] *)
Definition subscript2 (cfg : pyval) (section key : string) : result pyval :=
  and_then (subscript cfg section) (fun s => subscript s key).

(** The keys [generate] reads by subscription, by section. *)
Definition generate_subscripts : list (string * string) :=
  [("output", "pdf_name"); ("pandoc", "template"); ("pandoc", "highlight_style");
   ("paths", "resource_path"); ("pandoc", "top_level_division")].

(** A lookup that finds its value or misses a key: the objects it goes
    through are mappings. *)
Definition found_or_missing (r : result pyval) : Prop :=
  match r with
  | inr _ => True
  | inl (KeyError _) => True
  | inl _ => False
  end.

(** * Sample inputs *)

Module Sample.

Definition no_repr (v : pyval) : string := "<object>".

Definition the_day : date := {| year := 2024; month := 3; day := 9 |}.

Definition metadata : pyval := PDict [(PStr "title", PStr "T"); (PStr "author", PStr "A")].

Definition with_metadata (md : pyval) : pyval :=
  PDict [ (PStr "metadata", md);
          (PStr "output", PDict [(PStr "pdf_name", PStr "report.pdf"); (PStr "archive", PBool true)]);
          (PStr "pandoc", PDict [(PStr "template", PStr "eisvogel");
                                 (PStr "highlight_style", PStr "tango");
                                 (PStr "top_level_division", PStr "chapter")]);
          (PStr "paths", PDict [(PStr "resource_path", PStr ".")]) ].

Definition cfg : pyval := with_metadata metadata.

(** A config whose metadata has an author and no title. *)
Definition cfg_no_title : pyval := with_metadata (PDict [(PStr "author", PStr "A")]).

(** A config whose metadata has a title and no author. *)
Definition cfg_no_author : pyval := with_metadata (PDict [(PStr "title", PStr "T")]).

(** A config without the [pandoc] section. *)
Definition cfg_no_pandoc : pyval :=
  PDict [ (PStr "metadata", metadata);
          (PStr "output", PDict [(PStr "pdf_name", PStr "report.pdf")]) ].

Definition load (text : string) : option pyval := Some cfg.

Definition world_of (files : gmap string node) : World :=
  {| fs := files; stdout := []; spawned := []; clock := the_day |}.

Definition template_lines : list string :=
  ["---"; title_ph; author_ph; date_ph; "---"; "# Report"].

Definition world : World :=
  world_of {[ "t.md" := File true (Str.join newline template_lines);
              "config.yml" := File true "metadata: ..." ]}.

(** A template with a [subtitle] field next to the three placeholders. *)
Definition subtitle_ph : string := "sub" +:+ title_ph.

Definition subtitle_lines : list string :=
  [title_ph; subtitle_ph; author_ph; date_ph].

Definition subtitle_world : World :=
  world_of {[ "t.md" := File true (Str.join newline subtitle_lines) ]}.

(** A template without placeholders. *)
Definition plain_world : World :=
  world_of {[ "t.md" := File true (Str.join newline ["# Notes"; "title: none"]) ]}.

(** A template without placeholders and with Windows line endings. *)
Definition crlf_text : string := String "a" (String CR (String LF "b")).

Definition crlf_world : World := world_of {[ "t.md" := File true crlf_text ]}.

Definition md5 (data : string) : string := "md5:" +:+ data.

Definition program (args : list string) : string := List.hd "" args.

(** Both tools work: the converter leaves the PDF, the archiver the archive. *)
Definition tools_work (args : list string) (m : gmap string node) : completed :=
  if String.eqb (program args) "pandoc" then Exited 0 (<["out/report.pdf" := File true "%PDF"]> m)
  else if String.eqb (program args) "7z" then Exited 0 (<["out/report.7z" := File true "7z"]> m)
  else NoSuchProgram.

(** The converter exits with status 43. *)
Definition converter_fails (args : list string) (m : gmap string node) : completed :=
  if String.eqb (program args) "pandoc" then Exited 43 m else NoSuchProgram.

(** No tool is installed. *)
Definition nothing_installed (args : list string) (m : gmap string node) : completed :=
  NoSuchProgram.

(** The converter works and the archiver is not installed. *)
Definition archiver_missing (args : list string) (m : gmap string node) : completed :=
  if String.eqb (program args) "pandoc" then Exited 0 (<["out/report.pdf" := File true "%PDF"]> m)
  else NoSuchProgram.

(** The converter's command line on the sample config. *)
Definition converter_args : list string :=
  ["pandoc"; "report.md"; "-o"; "out/report.pdf";
   "--from"; "markdown+yaml_metadata_block+raw_html";
   "--template"; "eisvogel"; "--highlight-style"; "tango";
   "--resource-path"; "."; "--top-level-division"; "chapter"].

Definition pdf : PurePath := joinpath (Path "out") "report.pdf".

(** The file system once the converter has left the PDF. *)
Definition with_pdf : gmap string node :=
  <["out/report.pdf" := File true "%PDF"]> (made "out" world).

(** The file system once the archiver has left the archive. *)
Definition with_archive : gmap string node :=
  <["out/report.7z" := File true "7z"]> with_pdf.

End Sample.

(** A computation that hands no command line to [subprocess.run]. *)
Definition quiet {A : Type} (m : M A) : Prop :=
  forall w, spawned (snd (m w)) = spawned w.

(** A computation that leaves the entry [k] of the file system alone. *)
Definition keeps {A : Type} (k : string) (m : M A) : Prop :=
  forall w, fs (snd (m w)) !! k = fs w !! k.

(** The file system after the command lines [cmds] were run in order
    from [m]; a program that cannot be started leaves it as it is. *)
Definition replay (spawn : list string -> gmap string node -> completed)
    (cmds : list (list string)) (m : gmap string node) : gmap string node :=
  List.fold_left (fun m args => match spawn args m with
                                | NoSuchProgram => m
                                | Exited _ m' => m'
                                end) cmds m.

(** A computation that changes the file system through the command
    lines it hands to [subprocess.run], and in no other way. *)
Definition through_tools {A : Type} (spawn : list string -> gmap string node -> completed)
    (c : M A) : Prop :=
  forall w, exists cmds,
    spawned (snd (c w)) = spawned w ++ cmds
    /\ fs (snd (c w)) = replay spawn cmds (fs w).

(** * More sample inputs *)

Module Sample2.

(** The template already sits in the output directory. *)
Definition inplace_world : World :=
  Sample.world_of {[ "out" := Dir;
                     "out/t.md" := File true (Str.join newline Sample.template_lines) ]}.

(** A regular file stands where the output directory should be. *)
Definition blocked_world : World :=
  Sample.world_of {[ "out" := File true "not a directory"; "t.md" := File true "x" ]}.

(** The config path names a directory. *)
Definition dir_config_world : World := Sample.world_of {[ "conf" := Dir ]}.

(** A parser that refuses every text. *)
Definition load_fails (text : string) : option pyval := None.

(** A config with [archive: false]. *)
Definition cfg_no_archive : pyval :=
  PDict [ (PStr "metadata", Sample.metadata);
          (PStr "output", PDict [(PStr "pdf_name", PStr "report.pdf"); (PStr "archive", PBool false)]);
          (PStr "pandoc", PDict [(PStr "template", PStr "eisvogel");
                                 (PStr "highlight_style", PStr "tango");
                                 (PStr "top_level_division", PStr "chapter")]);
          (PStr "paths", PDict [(PStr "resource_path", PStr ".")]) ].

(** A config whose [top_level_division] is a number. *)
Definition cfg_int_division : pyval :=
  PDict [ (PStr "output", PDict [(PStr "pdf_name", PStr "report.pdf")]);
          (PStr "pandoc", PDict [(PStr "template", PStr "eisvogel");
                                 (PStr "highlight_style", PStr "tango");
                                 (PStr "top_level_division", PInt 1)]);
          (PStr "paths", PDict [(PStr "resource_path", PStr ".")]) ].

(** A config whose [pdf_name] is a number. *)
Definition cfg_int_pdf_name : pyval :=
  PDict [ (PStr "output", PDict [(PStr "pdf_name", PInt 7)]) ].

(** A config with a table of contents, no depth, and numbered sections. *)
Definition pandoc_toc : list (pyval * pyval) :=
  [(PStr "template", PStr "eisvogel"); (PStr "highlight_style", PStr "tango");
   (PStr "top_level_division", PStr "chapter");
   (PStr "toc", PBool true); (PStr "number_sections", PBool true)].

Definition cfg_toc : pyval :=
  PDict [ (PStr "output", PDict [(PStr "pdf_name", PStr "report.pdf")]);
          (PStr "pandoc", PDict pandoc_toc);
          (PStr "paths", PDict [(PStr "resource_path", PStr ".")]) ].

(** A config whose [pdf_name] is an absolute path. *)
Definition cfg_absolute_pdf : pyval :=
  PDict [ (PStr "metadata", Sample.metadata);
          (PStr "output", PDict [(PStr "pdf_name", PStr "/tmp/r.pdf")]);
          (PStr "pandoc", PDict [(PStr "template", PStr "eisvogel");
                                 (PStr "highlight_style", PStr "tango");
                                 (PStr "top_level_division", PStr "chapter")]);
          (PStr "paths", PDict [(PStr "resource_path", PStr ".")]) ].

(** A config whose [metadata:] section is there and empty. *)
Definition cfg_empty_metadata : pyval := Sample.with_metadata PNone.

(** A template the process may read and not write. *)
Definition read_only_world : World :=
  Sample.world_of {[ "t.md" := File false (Str.join newline Sample.template_lines) ]}.

(** A metadata mapping with a null title. *)
Definition cfg_null_title : pyval :=
  Sample.with_metadata (PDict [(PStr "title", PNone); (PStr "author", PStr "A")]).

(** The converter works and the archiver exits with status 2. *)
Definition archiver_fails (args : list string) (m : gmap string node) : completed :=
  if String.eqb (Sample.program args) "pandoc"
  then Exited 0 (<["out/report.pdf" := File true "%PDF"]> m)
  else Exited 2 m.

(** The converter works and the archiver exits with status 0 without
    writing anything. *)
Definition archiver_idle (args : list string) (m : gmap string node) : completed :=
  if String.eqb (Sample.program args) "pandoc"
  then Exited 0 (<["out/report.pdf" := File true "%PDF"]> m)
  else Exited 0 m.

End Sample2.

(** * Checks of the embedding on concrete inputs *)

Example replace_all_occurrences :
  Str.replace "ab" "X" "abcabab" = "XcXX".
Proof. reflexivity. Qed.

Example replace_leftmost_first :
  Str.replace "aa" "b" "aaa" = "ba".
Proof. reflexivity. Qed.

Example replace_empty_old :
  Str.replace "" "-" "abc" = "-a-b-c-".
Proof. reflexivity. Qed.

Example split_slashes :
  Str.split "/" "a//b/" = ["a"; ""; "b"; ""].
Proof. reflexivity. Qed.

Example isoformat_pads :
  isoformat {| year := 2024; month := 3; day := 9 |} = "2024-03-09".
Proof. reflexivity. Qed.

Example path_normalises : path_str (Path "./out//sub/") = "out/sub".
Proof. reflexivity. Qed.

Example path_cwd : path_str (Path "") = ".".
Proof. reflexivity. Qed.

Example joinpath_relative : path_str (joinpath (Path "out") "report.pdf") = "out/report.pdf".
Proof. reflexivity. Qed.

Example joinpath_absolute : path_str (joinpath (Path "out") "/tmp/r.pdf") = "/tmp/r.pdf".
Proof. reflexivity. Qed.

Example stem_examples :
  stem (Path "out/report.pdf") = "report" /\ stem (Path "a.tar.gz") = "a.tar"
  /\ stem (Path ".hidden") = ".hidden" /\ stem (Path "plain") = "plain"
  /\ stem (Path "trail.") = "trail.".
Proof. repeat split; reflexivity. Qed.

Example universal_newlines_crlf :
  universal_newlines (String "a" (String CR (String LF (String "b" (String CR "c")))))
  = String "a" (String LF (String "b" (String LF "c"))).
Proof. reflexivity. Qed.

(** * Facts about strings *)

Module StrFacts.
Import Str.

Lemma app_cons (c : ascii) (a b : string) : String c a +:+ b = String c (a +:+ b).
Proof. reflexivity. Qed.

Lemma app_nil_r (s : string) : s +:+ "" = s.
Proof. induction s as [|c s IH]; [reflexivity|]. by rewrite app_cons, IH. Qed.

Lemma app_assoc (a b c : string) : (a +:+ b) +:+ c = a +:+ b +:+ c.
Proof. induction a as [|x a IH]; [reflexivity|]. by rewrite !app_cons, IH. Qed.

Lemma length_app (a b : string) :
  String.length (a +:+ b) = String.length a + String.length b.
Proof. induction a as [|x a IH]; [reflexivity|]. rewrite app_cons. cbn. by rewrite IH. Qed.

(** [startswith] is exactly "is a prefix". *)
Lemma startswith_app (p s : string) : startswith p (p +:+ s) = true.
Proof.
  induction p as [|c p IH]; [reflexivity|].
  rewrite app_cons. cbn. by rewrite Ascii.eqb_refl.
Qed.

Lemma startswith_inv (p s : string) :
  startswith p s = true -> exists rest, s = p +:+ rest.
Proof.
  revert s. induction p as [|c p IH]; intros s H.
  - by exists s.
  - destruct s as [|d s]; [discriminate|].
    cbn in H. destruct (Ascii.eqb_spec c d) as [->|]; [|discriminate].
    destruct (IH _ H) as [rest ->]. by exists rest.
Qed.

(** *** The equations of [replace] *)

Lemma replace_from_skip (old new a s : string) :
  replace_from (String.length a) old new (a +:+ s) = replace_from 0 old new s.
Proof. induction a as [|c a IH]; [reflexivity|]. exact IH. Qed.

Lemma replace_nil (c : ascii) (old new : string) :
  replace (String c old) new "" = "".
Proof. reflexivity. Qed.

Lemma replace_match (c : ascii) (old new s : string) :
  replace (String c old) new (String c old +:+ s)
  = new +:+ replace (String c old) new s.
Proof.
  unfold replace. rewrite app_cons.
  change (replace_from 0 ?o ?n (String ?x ?t))
    with (if startswith o (String x t)
          then n +:+ replace_from (String.length o - 1) o n t
          else String x (replace_from 0 o n t)).
  rewrite <- app_cons, startswith_app.
  f_equal. cbn [String.length]. rewrite Nat.sub_succ, Nat.sub_0_r.
  apply replace_from_skip.
Qed.

Lemma replace_step (c x : ascii) (old new s : string) :
  startswith (String c old) (String x s) = false ->
  replace (String c old) new (String x s)
  = String x (replace (String c old) new s).
Proof.
  intros H. unfold replace.
  change (replace_from 0 ?o ?n (String ?y ?t))
    with (if startswith o (String y t)
          then n +:+ replace_from (String.length o - 1) o n t
          else String y (replace_from 0 o n t)).
  by rewrite H.
Qed.

(** Induction on a string that may strip a whole prefix at a time. *)
Lemma string_length_ind (P : string -> Prop) :
  (forall s, (forall t, String.length t < String.length s -> P t) -> P s) ->
  forall s, P s.
Proof.
  intros step s.
  assert (H : forall n t, String.length t < n -> P t).
  { induction n as [|n IH]; intros t Ht; [lia|].
    apply step. intros u Hu. apply IH. lia. }
  apply (H (S (String.length s))). lia.
Qed.

(** A text without the pattern comes out as it went in. *)
Lemma replace_absent (old new s : string) :
  contains old s = false -> replace old new s = s.
Proof.
  destruct old as [|c old].
  { destruct s; discriminate. }
  induction s as [|x s IH]; intros H; [reflexivity|].
  cbn [contains] in H. apply orb_false_iff in H as [H1 H2].
  rewrite replace_step by done. by rewrite IH.
Qed.

(** Replacing a pattern by itself changes nothing. *)
Lemma replace_same (old s : string) : old <> "" -> replace old old s = s.
Proof.
  destruct old as [|c old]; [done|]. intros _.
  induction s as [s IH] using string_length_ind.
  destruct s as [|x s]; [reflexivity|].
  destruct (startswith (String c old) (String x s)) eqn:E.
  - apply startswith_inv in E as [rest E]. rewrite E.
    rewrite replace_match. f_equal. apply IH.
    rewrite E, length_app. cbn. lia.
  - rewrite replace_step by done. f_equal. apply IH. cbn. lia.
Qed.

(** *** Replacement and separators *)

Lemma startswith_over_sep (c : ascii) (p a b : string) :
  mem c p = false -> startswith p (a +:+ String c b) = startswith p a.
Proof.
  revert a. induction p as [|x p IH]; intros a H; [reflexivity|].
  cbn [mem] in H. apply orb_false_iff in H as [Hx Hp].
  destruct a as [|y a].
  - change ("" +:+ String c b) with (String c b). cbn. by rewrite Hx.
  - rewrite app_cons. cbn. destruct (Ascii.eqb x y); [by apply IH|done].
Qed.

(** An occurrence never spans a character the pattern does not contain,
    so replacement works on each side of it. *)
Lemma replace_over_sep (c x : ascii) (old new a b : string) :
  mem c (String x old) = false ->
  replace (String x old) new (a +:+ String c b)
  = replace (String x old) new a +:+ String c (replace (String x old) new b).
Proof.
  intros Hc. induction a as [a IH] using string_length_ind.
  destruct a as [|y a].
  - assert (E : startswith (String x old) (String c b) = false).
    { exact (startswith_over_sep c (String x old) "" b Hc). }
    change ("" +:+ String c b) with (String c b).
    by rewrite replace_step.
  - destruct (startswith (String x old) (String y a)) eqn:E.
    + apply startswith_inv in E as [rest E]. rewrite E.
      rewrite app_assoc, !replace_match, app_assoc. f_equal.
      apply IH. rewrite E, length_app. cbn. lia.
    + rewrite app_cons, !replace_step, app_cons; [|done|].
      * f_equal. apply IH. cbn. lia.
      * by rewrite <- app_cons, startswith_over_sep.
Qed.

Lemma replace_join (old new : string) (ls : list string) :
  old <> "" -> mem LF old = false ->
  replace old new (join newline ls) = join newline (List.map (replace old new) ls).
Proof.
  intros Hne Hlf. destruct old as [|x old]; [done|].
  induction ls as [|l ls IH]; [reflexivity|].
  destruct ls as [|l' ls]; [reflexivity|].
  change (join newline (l :: l' :: ls)) with (l +:+ String LF (join newline (l' :: ls))).
  rewrite replace_over_sep by done. by rewrite IH.
Qed.

(** *** Universal newlines *)

Lemma universal_newlines_no_cr (s : string) :
  mem CR s = false -> universal_newlines s = s.
Proof.
  unfold universal_newlines.
  induction s as [|c s IH]; intros H; [reflexivity|].
  cbn [mem] in H. apply orb_false_iff in H as [Hc Hs].
  cbn [translate_newlines]. rewrite Hc, (IH Hs).
  by destruct (Ascii.eqb_spec c LF) as [->|].
Qed.

End StrFacts.

(** * Facts about paths *)

Module PathFacts.
Import Str StrFacts.

Lemma split_nonempty (sep : ascii) (s : string) : split sep s <> [].
Proof.
  induction s as [|c s IH]; [done|].
  cbn. destruct (Ascii.eqb c sep); [done|]. by destruct (split sep s).
Qed.

(** No piece of a split contains the separator. *)
Lemma split_pieces (sep : ascii) (s : string) :
  Forall (fun x => mem sep x = false) (split sep s).
Proof.
  induction s as [|c s IH]; [by repeat constructor|].
  cbn. destruct (Ascii.eqb c sep) eqn:E; [by constructor|].
  destruct (split sep s) as [|x xs]; [by repeat constructor; cbn; rewrite E|].
  inversion IH; subst. constructor; [|done]. cbn. by rewrite E.
Qed.

Lemma split_whole (sep : ascii) (s : string) :
  mem sep s = false -> split sep s = [s].
Proof.
  induction s as [|c s IH]; intros H; [reflexivity|].
  cbn [mem] in H. apply orb_false_iff in H as [Hc Hs].
  cbn. by rewrite Hc, IH.
Qed.

(** The components of a parsed path are proper and free of slashes. *)
Lemma Path_parts (s : string) :
  Forall (fun x => is_component x = true /\ mem "/" x = false) (parts (Path s)).
Proof.
  unfold Path. cbn [parts].
  pose proof (split_pieces "/" s) as H.
  induction H as [|x xs Hx _ IH]; [constructor|].
  cbn. destruct (is_component x) eqn:E; [constructor|]; done.
Qed.

Lemma last_in {A : Type} (l : list A) (d : A) : l <> [] -> In (List.last l d) l.
Proof.
  induction l as [|x l IH]; [done|]. intros _.
  destruct l as [|y l]; [by left|]. right. by apply IH.
Qed.

(** The name of a path with components is one of them. *)
Lemma name_component (s : string) :
  parts (Path s) <> [] ->
  is_component (name (Path s)) = true /\ mem "/" (name (Path s)) = false.
Proof.
  intros H. pose proof (Path_parts s) as HF.
  rewrite Forall_forall in HF. apply HF, list_elem_of_In, last_in, H.
Qed.

(** A single component parses to itself. *)
Lemma Path_component (x : string) :
  is_component x = true -> mem "/" x = false ->
  Path x = {| root := ""; parts := [x] |}.
Proof.
  intros Hc Hs. unfold Path. rewrite split_whole by done.
  cbn [List.filter]. rewrite Hc. f_equal.
  destruct x as [|c x]; [reflexivity|].
  cbn [mem] in Hs. apply orb_false_iff in Hs as [Hs _].
  cbn. destruct (Ascii.eqb_spec c "/") as [->|Hne]; [done|].
  destruct c as [[] [] [] [] [] [] [] []]; try reflexivity. done.
Qed.

Lemma joinpath_component (p : PurePath) (x : string) :
  is_component x = true -> mem "/" x = false ->
  joinpath p x = {| root := root p; parts := parts p ++ [x] |}.
Proof. intros Hc Hs. unfold joinpath. by rewrite Path_component. Qed.

Lemma parent_joinpath (p : PurePath) (x : string) :
  is_component x = true -> mem "/" x = false -> parent (joinpath p x) = p.
Proof.
  intros Hc Hs. rewrite joinpath_component by done.
  unfold parent. cbn [root parts]. rewrite List.removelast_last. by destruct p.
Qed.

Lemma name_joinpath (p : PurePath) (x : string) :
  is_component x = true -> mem "/" x = false -> name (joinpath p x) = x.
Proof.
  intros Hc Hs. rewrite joinpath_component by done.
  unfold name. cbn [parts]. apply List.last_last.
Qed.

Lemma mem_app (c : ascii) (a b : string) : mem c (a +:+ b) = mem c a || mem c b.
Proof.
  induction a as [|x a IH]; [reflexivity|].
  rewrite app_cons. cbn [mem]. by rewrite IH, orb_assoc.
Qed.

Lemma mem_take (c : ascii) (n : nat) (s : string) :
  mem c s = false -> mem c (take n s) = false.
Proof.
  revert s. induction n as [|n IH]; intros [|x s] H; try reflexivity.
  cbn [mem take] in *. apply orb_false_iff in H as [Hx Hs]. by rewrite Hx, IH.
Qed.

Lemma take_app (a b : string) : take (String.length a) (a +:+ b) = a.
Proof. induction a as [|x a IH]; [by destruct b|]. rewrite app_cons. cbn. by rewrite IH. Qed.

Lemma rfind_dot_none (s : string) : mem "." s = false -> rfind_dot s = None.
Proof.
  induction s as [|c s IH]; [done|]. cbn [mem]. intros H.
  apply orb_false_iff in H as [Hc Hs]. cbn. by rewrite IH, Hc.
Qed.

(** The last dot of [base.ext] when [ext] has none. *)
Lemma rfind_dot_ext (base ext : string) :
  mem "." ext = false ->
  rfind_dot (base +:+ "." +:+ ext) = Some (String.length base).
Proof.
  intros H. induction base as [|c base IH].
  - change ("" +:+ "." +:+ ext) with (String "." ext). cbn. by rewrite rfind_dot_none.
  - rewrite app_cons. cbn. by rewrite IH.
Qed.

Lemma stem_ext (p : PurePath) (base ext : string) :
  name p = base +:+ "." +:+ ext -> base <> "" -> ext <> "" -> mem "." ext = false ->
  stem p = base.
Proof.
  intros Hn Hb He Hd. unfold stem. rewrite Hn, rfind_dot_ext by done.
  rewrite !length_app.
  assert (0 < String.length base) by (destruct base; [done|cbn; lia]).
  assert (0 < String.length ext) by (destruct ext; [done|cbn; lia]).
  assert (E1 : (0 <? String.length base) = true) by (apply Nat.ltb_lt; lia).
  assert (E2 : (String.length base <? String.length base + (String.length "." + String.length ext) - 1)
               = true) by (apply Nat.ltb_lt; cbn; lia).
  rewrite E1, E2. cbn [andb]. apply take_app.
Qed.

Lemma stem_no_slash (p : PurePath) : mem "/" (name p) = false -> mem "/" (stem p) = false.
Proof.
  intros H. unfold stem. destruct (rfind_dot (name p)) as [i|]; [|done].
  destruct (_ && _); [by apply mem_take|done].
Qed.

Lemma joinpath_parts (p : PurePath) (s : string) :
  Forall (fun x => is_component x = true /\ mem "/" x = false) (parts p) ->
  Forall (fun x => is_component x = true /\ mem "/" x = false) (parts (joinpath p s)).
Proof.
  intros H. unfold joinpath. pose proof (Path_parts s) as Hs.
  destruct (root (Path s)); [|done]. cbn [parts]. by apply Forall_app.
Qed.

Lemma name_no_slash (p : PurePath) :
  Forall (fun x => is_component x = true /\ mem "/" x = false) (parts p) ->
  mem "/" (name p) = false.
Proof.
  intros H. unfold name. destruct (parts p) as [|x xs] eqn:E; [done|].
  rewrite Forall_forall in H. apply H, list_elem_of_In, last_in. done.
Qed.

Lemma suffix_component (s : string) : is_component (s +:+ ".7z") = true.
Proof.
  destruct s as [|c s]; [reflexivity|].
  unfold is_component. rewrite app_cons. cbn [String.eqb].
  destruct (Ascii.eqb c "."); [|reflexivity]. by destruct s.
Qed.

(** The archive sits in the output directory under the stem's name. *)
Lemma archive_path_spec (output N : string) :
  parent (archive_path output (joinpath (Path output) N)) = Path output
  /\ name (archive_path output (joinpath (Path output) N))
     = stem (joinpath (Path output) N) +:+ ".7z".
Proof.
  assert (Hs : mem "/" (stem (joinpath (Path output) N) +:+ ".7z") = false).
  { rewrite mem_app, stem_no_slash; [done|].
    apply name_no_slash, joinpath_parts, Path_parts. }
  unfold archive_path. split.
  - apply parent_joinpath; [apply suffix_component|done].
  - apply name_joinpath; [apply suffix_component|done].
Qed.

End PathFacts.

(** * Facts about the file system *)

Module FsFacts.
Import Str StrFacts PathFacts.

Lemma with_dirs_out (keys : list string) (m : gmap string node) (k : string) :
  ~ In k keys -> with_dirs keys m !! k = m !! k.
Proof.
  revert m. induction keys as [|x keys IH]; intros m H; [done|].
  cbn. rewrite IH by (intros ?; apply H; by right).
  apply lookup_insert_ne. intros ->. apply H. by left.
Qed.

Lemma with_dirs_in (keys : list string) (m : gmap string node) (k : string) :
  In k keys -> with_dirs keys m !! k = Some Dir.
Proof.
  revert m. induction keys as [|x keys IH]; intros m H; [done|].
  cbn. destruct (List.in_dec String.string_dec k keys) as [Hin|Hout]; [by apply IH|].
  destruct H as [->|H]; [|done].
  rewrite with_dirs_out by done. apply lookup_insert_eq.
Qed.

Lemma existsb_removelast {A : Type} (f : A -> bool) (l : list A) :
  List.existsb f l = false -> List.existsb f (List.removelast l) = false.
Proof.
  induction l as [|x l IH]; [done|]. intros H.
  cbn in H. apply orb_false_iff in H as [Hx Hl].
  destruct l as [|y l]; [done|].
  change (List.removelast (x :: y :: l)) with (x :: List.removelast (y :: l)).
  cbn [List.existsb]. by rewrite Hx, IH.
Qed.

(** When no regular file is in the way, [mkdir] creates the lineage. *)
Lemma mkdir_ok (p : PurePath) (w : World) :
  List.existsb (is_file (fs w)) (lineage p) = false ->
  mkdir p w = (inr tt, set_fs w (with_dirs (lineage p) (fs w))).
Proof. intros H. unfold mkdir. cbv zeta. by rewrite existsb_removelast, H. Qed.

Lemma prefixes_spec {A : Type} (l pre : list A) :
  In pre (prefixes l) -> pre <> [] /\ exists rest, l = pre ++ rest.
Proof.
  revert pre. induction l as [|x l IH]; intros pre H; [done|].
  cbn in H. destruct H as [<-|H]; [split; [done|by exists l]|].
  apply List.in_map_iff in H as (q & <- & Hq).
  destruct (IH _ Hq) as [_ [rest ->]]. split; [done|by exists rest].
Qed.

Lemma prefixes_whole {A : Type} (l : list A) : l <> [] -> In l (prefixes l).
Proof.
  induction l as [|x l IH]; [done|]. intros _. cbn.
  destruct l as [|y l]; [by left|]. right.
  apply List.in_map. by apply IH.
Qed.

Lemma path_str_parts (r : string) (ps : list string) :
  ps <> [] -> path_str {| root := r; parts := ps |} = r +:+ join "/" ps.
Proof. intros H. unfold path_str. cbn [root parts]. destruct r, ps; done. Qed.

Lemma lineage_self (p : PurePath) : parts p <> [] -> In (path_str p) (lineage p).
Proof.
  intros H. unfold lineage. apply List.in_map_iff.
  exists (parts p). split; [by destruct p|by apply prefixes_whole].
Qed.

Lemma length_join_app (sep : string) (a b : list string) :
  String.length (join sep a) <= String.length (join sep (a ++ b)).
Proof.
  induction a as [|x a IH]; [cbn; lia|].
  destruct a as [|y a].
  - destruct b as [|z b]; [done|].
    change (join sep ([x] ++ z :: b)) with (x +:+ sep +:+ join sep (z :: b)).
    rewrite length_app. cbn [join]. lia.
  - change (join sep ((x :: y :: a) ++ b)) with (x +:+ sep +:+ join sep ((y :: a) ++ b)).
    change (join sep (x :: y :: a)) with (x +:+ sep +:+ join sep (y :: a)).
    rewrite !length_app. lia.
Qed.

Lemma length_join_snoc (sep : string) (a : list string) (x : string) :
  x <> "" -> String.length (join sep a) < String.length (join sep (a ++ [x])).
Proof.
  intros Hx. induction a as [|y a IH].
  - cbn. destruct x; [done|cbn; lia].
  - destruct a as [|z a].
    + change (join sep ([y] ++ [x])) with (y +:+ sep +:+ x).
      rewrite !length_app. cbn [join]. destruct x; [done|cbn; lia].
    + change (join sep ((y :: z :: a) ++ [x])) with (y +:+ sep +:+ join sep ((z :: a) ++ [x])).
      change (join sep (y :: z :: a)) with (y +:+ sep +:+ join sep (z :: a)).
      rewrite !length_app. lia.
Qed.

(** A child of [p] is not [p] nor one of its ancestors. *)
Lemma child_not_in_lineage (p : PurePath) (x : string) :
  is_component x = true -> mem "/" x = false ->
  ~ In (path_str (joinpath p x)) (lineage p).
Proof.
  intros Hc Hs Hin. rewrite joinpath_component in Hin by done.
  assert (Hx : x <> "") by (intros ->; done).
  rewrite path_str_parts in Hin by (by destruct (parts p)).
  unfold lineage in Hin. apply List.in_map_iff in Hin as (pre & E & Hpre).
  apply prefixes_spec in Hpre as [Hne [rest Hrest]].
  rewrite path_str_parts in E by done.
  apply (f_equal String.length) in E. rewrite !length_app in E.
  pose proof (length_join_snoc "/" (parts p) x Hx).
  pose proof (length_join_app "/" pre rest). rewrite <- Hrest in *. lia.
Qed.

Lemma join_app (sep : string) (a b : list string) :
  a <> [] -> b <> [] -> join sep (a ++ b) = join sep a +:+ sep +:+ join sep b.
Proof.
  intros Ha Hb. induction a as [|x a IH]; [done|].
  destruct a as [|y a].
  - destruct b; [done|reflexivity].
  - change (join sep ((x :: y :: a) ++ b)) with (x +:+ sep +:+ join sep ((y :: a) ++ b)).
    change (join sep (x :: y :: a)) with (x +:+ sep +:+ join sep (y :: a)).
    rewrite IH by done. by rewrite !app_assoc.
Qed.

(** For path strings already in normal form, [/] is a slash between them. *)
Lemma path_str_joinpath (d n : string) :
  path_str (Path d) = d -> parts (Path d) <> [] ->
  path_str (Path n) = n -> root (Path n) = "" -> parts (Path n) <> [] ->
  path_str (joinpath (Path d) n) = d +:+ "/" +:+ n.
Proof.
  intros Hd Hdp Hn Hnr Hnp. unfold joinpath. rewrite Hnr.
  rewrite path_str_parts by (intros E; by apply app_eq_nil in E as [? _]).
  rewrite join_app by done.
  remember (Path d) as p eqn:Ep. remember (Path n) as q eqn:Eq. clear Ep Eq.
  rewrite <- Hd, <- Hn.
  destruct p as [rd pd], q as [rn pn]. cbn [root parts] in *. subst rn.
  rewrite !path_str_parts by done.
  change ("" +:+ join "/" pn) with (join "/" pn). by rewrite app_assoc.
Qed.

(** *** Paths without a NUL character *)

Lemma mem_split (c sep : ascii) (s : string) :
  mem c s = false -> Forall (fun x => mem c x = false) (split sep s).
Proof.
  induction s as [|a s IH]; intros H; [by repeat constructor|].
  cbn [mem] in H. apply orb_false_iff in H as [Ha Hs]. specialize (IH Hs).
  cbn. destruct (Ascii.eqb a sep); [by constructor|].
  destruct (split sep s) as [|x xs]; [by repeat constructor; cbn; rewrite Ha|].
  inversion IH; subst. constructor; [|done]. cbn. by rewrite Ha.
Qed.

Lemma mem_join (c : ascii) (sep : string) (xs : list string) :
  mem c sep = false -> Forall (fun x => mem c x = false) xs -> mem c (join sep xs) = false.
Proof.
  intros Hsep H. induction H as [|x xs Hx Hxs IH]; [done|].
  destruct xs as [|y xs]; [done|].
  change (join sep (x :: y :: xs)) with (x +:+ sep +:+ join sep (y :: xs)).
  by rewrite !mem_app, Hx, Hsep, IH.
Qed.

Lemma mem_join_inv (c : ascii) (sep : string) (xs : list string) :
  mem c (join sep xs) = false -> Forall (fun x => mem c x = false) xs.
Proof.
  induction xs as [|x xs IH]; [constructor|].
  destruct xs as [|y xs]; [by repeat constructor|].
  change (join sep (x :: y :: xs)) with (x +:+ sep +:+ join sep (y :: xs)).
  rewrite !mem_app. intros H.
  apply orb_false_iff in H as [Hx H]. apply orb_false_iff in H as [_ H].
  constructor; [done|by apply IH].
Qed.

Lemma mem_path_str (c : ascii) (p : PurePath) :
  mem c (path_str p) = false -> Forall (fun x => mem c x = false) (parts p).
Proof.
  destruct p as [r ps]. destruct ps as [|x ps]; [constructor|].
  rewrite path_str_parts by done. rewrite mem_app. intros H.
  apply orb_false_iff in H as [_ H]. by apply mem_join_inv in H.
Qed.

Lemma splitroot_cases (s : string) :
  splitroot s = "" \/ splitroot s = "/" \/ splitroot s = "//".
Proof.
  unfold splitroot.
  destruct s as [|a s]; [auto|].
  destruct a as [[] [] [] [] [] [] [] []]; auto.
  destruct s as [|b s]; [auto|].
  destruct b as [[] [] [] [] [] [] [] []]; auto.
  destruct s as [|c s]; [auto|].
  destruct c as [[] [] [] [] [] [] [] []]; auto.
Qed.

Lemma Path_no_nul (s : string) :
  mem "000" s = false ->
  mem "000" (root (Path s)) = false
  /\ Forall (fun x => mem "000" x = false) (parts (Path s)).
Proof.
  intros H. split.
  - cbn [Path root]. by destruct (splitroot_cases s) as [->|[->| ->]].
  - unfold Path. cbn [parts].
    pose proof (mem_split "000" "/" s H) as HF.
    induction HF as [|x xs Hx _ IH]; [constructor|].
    cbn. destruct (is_component x); [constructor|]; done.
Qed.

Lemma stem_no_nul (p : PurePath) : mem "000" (path_str p) = false -> mem "000" (stem p) = false.
Proof.
  intros H. apply mem_path_str in H.
  assert (Hn : mem "000" (name p) = false).
  { unfold name. destruct (parts p) as [|x xs] eqn:E; [done|].
    rewrite Forall_forall in H. apply H, list_elem_of_In, last_in. done. }
  unfold stem. destruct (rfind_dot (name p)) as [i|]; [|done].
  destruct (_ && _); [by apply mem_take|done].
Qed.

(** The archive path has no NUL character when the output directory and
    the PDF path have none. *)
Lemma archive_path_no_nul (output N : string) :
  mem "000" output = false ->
  mem "000" (path_str (joinpath (Path output) N)) = false ->
  mem "000" (path_str (archive_path output (joinpath (Path output) N))) = false.
Proof.
  intros Ho Hpdf.
  assert (Hs : mem "/" (stem (joinpath (Path output) N) +:+ ".7z") = false).
  { rewrite mem_app, stem_no_slash; [done|].
    apply name_no_slash, joinpath_parts, Path_parts. }
  unfold archive_path. rewrite joinpath_component by (done || apply suffix_component).
  rewrite path_str_parts by (by destruct (parts (Path output))).
  destruct (Path_no_nul _ Ho) as [Hr Hp].
  rewrite mem_app, Hr. cbn [orb]. apply mem_join; [done|].
  apply Forall_app. split; [done|]. constructor; [|constructor].
  by rewrite mem_app, stem_no_nul.
Qed.

End FsFacts.

(** * Facts about the program *)

Section ReporterFacts.
Import Str StrFacts PathFacts FsFacts.

Variable py_repr : pyval -> string.
Variable safe_load : string -> option pyval.
Variable spawn : list string -> gmap string node -> completed.
Variable md5_hexdigest : string -> string.

(** *** Running the monad *)

Lemma bind_run {A B : Type} (m : M A) (f : A -> M B) (w : World) :
  (m ≫= f) w = match m w with
               | (inr x, w') => f x w'
               | (inl e, w') => (inl e, w')
               end.
Proof. reflexivity. Qed.

Lemma bind_ok {A B : Type} (m : M A) (f : A -> M B) (w w' : World) (x : A) :
  m w = (inr x, w') -> (m ≫= f) w = f x w'.
Proof. intros H. by rewrite bind_run, H. Qed.

Lemma bind_raise {A B : Type} (m : M A) (f : A -> M B) (w w' : World) (e : exn) :
  m w = (inl e, w') -> (m ≫= f) w = (inl e, w').
Proof. intros H. by rewrite bind_run, H. Qed.

(** *** Reading and writing *)

Lemma stat_file (m : gmap string node) (p : PurePath) (b : bool) (c : string) :
  stat m p = Some (File b c) -> parts p <> [] /\ m !! path_str p = Some (File b c).
Proof. unfold stat. destruct (parts p); [done|]. by split. Qed.

Lemma stat_lookup (m : gmap string node) (p : PurePath) :
  parts p <> [] -> stat m p = m !! path_str p.
Proof. unfold stat. by destruct (parts p). Qed.

Lemma read_text_file (p : PurePath) (w : World) (b : bool) (c : string) :
  stat (fs w) p = Some (File b c) -> read_text p w = (inr (universal_newlines c), w).
Proof. intros H. unfold read_text. rewrite bind_run. unfold open_read. by rewrite H. Qed.

Lemma write_text_file (p : PurePath) (w : World) (c text : string) :
  stat (fs w) p = Some (File true c) ->
  write_text p text w = (inr tt, set_fs w (<[path_str p := File true text]> (fs w))).
Proof. intros H. unfold write_text, open_write. by rewrite H. Qed.

Lemma write_text_read_only (p : PurePath) (w : World) (c text : string) :
  stat (fs w) p = Some (File false c) -> write_text p text w = (inl PermissionError, w).
Proof. intros H. unfold write_text, open_write. by rewrite H. Qed.

(** *** The metadata loop *)

Lemma replacements_shape (cfg : pyval) (d : date) (reps : list (string * pyval)) :
  replacements cfg d = inr reps ->
  exists t a, reps = [("title", t); ("author", a); ("date", PStr (isoformat d))].
Proof.
  unfold replacements, and_then. intros H.
  destruct (subscript cfg "metadata") as [e|md]; [done|].
  destruct (get md "title" _) as [e|t]; [done|].
  destruct (get md "author" _) as [e|a]; [done|].
  exists t, a. by injection H as <-.
Qed.

Lemma replacements_dict (cfg : pyval) (md : list (pyval * pyval)) (d : date) :
  subscript cfg "metadata" = inr (PDict md) ->
  replacements cfg d
  = inr [("title", default (PStr "") (dict_lookup md "title"));
         ("author", default (PStr "") (dict_lookup md "author"));
         ("date", PStr (isoformat d))].
Proof.
  intros H. unfold replacements, and_then. rewrite H. cbn [get].
  by destruct (dict_lookup md "title"), (dict_lookup md "author").
Qed.

Lemma substitute_three (t a d : pyval) (s : string) :
  substitute py_repr [("title", t); ("author", a); ("date", d)] s
  = replace date_ph (stamped "date" (py_str py_repr d))
      (replace author_ph (stamped "author" (py_str py_repr a))
         (replace title_ph (stamped "title" (py_str py_repr t)) s)).
Proof. reflexivity. Qed.

(** The loop works line by line. *)
Lemma substitute_join (t a d : pyval) (ls : list string) :
  substitute py_repr [("title", t); ("author", a); ("date", d)] (join newline ls)
  = join newline (List.map (substitute py_repr [("title", t); ("author", a); ("date", d)]) ls).
Proof.
  rewrite substitute_three.
  rewrite !replace_join by done.
  rewrite !List.map_map. apply (f_equal (join newline)), List.map_ext.
  intros l. by rewrite substitute_three.
Qed.

(** A line without any of the patterns is a fixed point of the loop. *)
Lemma substitute_absent (t a d : pyval) (l : string) :
  has_placeholder l = false ->
  substitute py_repr [("title", t); ("author", a); ("date", d)] l = l.
Proof.
  unfold has_placeholder. intros H.
  apply orb_false_iff in H as [H Hd]. apply orb_false_iff in H as [Ht Ha].
  rewrite substitute_three.
  by rewrite (replace_absent title_ph), (replace_absent author_ph), (replace_absent date_ph).
Qed.

(** What [replace_metadata] does to a regular file: the lookups in the
    config decide between raising with the file as it was and writing;
    writing a file the process may not write raises too. *)
Lemma replace_metadata_run_mode (md_file : PurePath) (cfg : pyval) (w : World)
    (b : bool) (c : string) :
  stat (fs w) md_file = Some (File b c) ->
  replace_metadata py_repr md_file cfg w
  = match replacements cfg (clock w) with
    | inr reps =>
        if b
        then (inr tt, set_fs w (<[path_str md_file :=
                                   File true (substitute py_repr reps (universal_newlines c))]>
                                  (fs w)))
        else (inl PermissionError, w)
    | inl e => (inl e, w)
    end.
Proof.
  intros H. unfold replace_metadata.
  rewrite (bind_ok _ _ _ _ _ (read_text_file _ _ _ _ H)).
  rewrite bind_run. unfold today. rewrite bind_run. unfold lift.
  destruct (replacements cfg (clock w)) as [e|reps]; [done|].
  destruct b; [by apply write_text_file with (c := c)|by apply write_text_read_only with (c := c)].
Qed.

Lemma replace_metadata_run (md_file : PurePath) (cfg : pyval) (w : World) (c : string) :
  stat (fs w) md_file = Some (File true c) ->
  replace_metadata py_repr md_file cfg w
  = match replacements cfg (clock w) with
    | inr reps =>
        (inr tt, set_fs w (<[path_str md_file :=
                              File true (substitute py_repr reps (universal_newlines c))]> (fs w)))
    | inl e => (inl e, w)
    end.
Proof. intros H. by rewrite (replace_metadata_run_mode _ _ _ _ _ H). Qed.

(** *** [init] *)

Lemma init_target_child (template : string) (b : bool) (content : string)
    (m : gmap string node) :
  stat m (Path template) = Some (File b content) ->
  is_component (name (Path template)) = true /\ mem "/" (name (Path template)) = false.
Proof. intros H. apply stat_file in H as [H _]. by apply name_component. Qed.

(** The whole of [init] when the copy can be made: the copy has the
    template's content and mode, and the config and the mode decide what
    follows. *)
Lemma init_cmd_run_mode (template output : string) (b : bool) (content : string)
    (cfg : pyval) (w : World) :
  init_ready_mode w template output b content ->
  let target := path_str (init_target template output) in
  init_cmd py_repr template output cfg w
  = match replacements cfg (clock w) with
    | inr reps =>
        if b
        then (inr tt,
              {| fs := <[target := File true (substitute py_repr reps
                                                (universal_newlines content))]>
                         (made output w);
                 stdout := stdout w ++ ["[+] Template copied to " +:+ target;
                                        "[+] Edit the Markdown file, then run `generate`"];
                 spawned := spawned w; clock := clock w |})
        else (inl PermissionError,
              {| fs := <[target := File false content]> (made output w);
                 stdout := stdout w; spawned := spawned w; clock := clock w |})
    | inl e =>
        (inl e,
         {| fs := <[target := File b content]> (made output w);
            stdout := stdout w; spawned := spawned w; clock := clock w |})
    end.
Proof.
  intros (Hmk & Htpl & Hne & Hnd) target.
  destruct (init_target_child _ _ _ _ Htpl) as [Hc Hs].
  destruct (stat_file _ _ _ _ Htpl) as [Hparts Hfile].
  set (w1 := set_fs w (made output w)).
  assert (Hkeep : fs w1 !! path_str (Path template) = Some (File b content)).
  { cbn. unfold made. rewrite with_dirs_out; [done|].
    intros Hin. rewrite <- Bool.not_true_iff_false in Hmk. apply Hmk.
    apply List.existsb_exists. eexists. split; [exact Hin|].
    unfold is_file. by rewrite Hfile. }
  assert (Htparts : parts (init_target template output) <> []).
  { unfold init_target. rewrite joinpath_component by done. cbn [parts].
    intros E. by apply app_eq_nil in E as [_ ?]. }
  assert (Htgt : fs w1 !! target = fs w !! target).
  { cbn. unfold made. rewrite with_dirs_out; [done|].
    by apply child_not_in_lineage. }
  assert (Hparent : stat (fs w1) (parent (init_target template output)) = Some Dir).
  { unfold init_target. rewrite parent_joinpath by done.
    destruct (parts (Path output)) eqn:Ep.
    - unfold stat. by rewrite Ep.
    - rewrite stat_lookup by (by rewrite Ep).
      cbn. unfold made. rewrite with_dirs_in; [done|].
      apply lineage_self. by rewrite Ep. }
  assert (Hcopy : shutil_copy (Path template) (init_target template output) w1
                  = (inr tt, set_fs w1 (<[target := File b content]> (fs w1)))).
  { unfold shutil_copy, is_dir. rewrite (stat_lookup _ _ Htparts).
    fold target. unfold writable_or_absent in Hnd. fold target in Hnd.
    rewrite <- Htgt in Hnd.
    assert (E : match fs w1 !! target with Some Dir => true | _ => false end = false).
    { by destruct (fs w1 !! target) as [[]|]. }
    rewrite E. pose proof Hne as Hne'. apply String.eqb_neq in Hne'. rewrite Hne'.
    rewrite bind_run. unfold open_read. rewrite (stat_lookup _ _ Hparts), Hkeep.
    assert (Hwrite : open_write (init_target template output) content w1
                     = (inr tt, set_fs w1 (<[target := File true content]> (fs w1)))).
    { unfold open_write. rewrite (stat_lookup _ _ Htparts). fold target.
      destruct (fs w1 !! target) as [[[] ?|]|] eqn:E'; [done|done|done|].
      by rewrite Hparent. }
    rewrite (bind_ok _ _ _ _ _ Hwrite).
    rewrite bind_run. unfold st_mode. cbn [fs set_fs].
    rewrite (stat_lookup _ _ Hparts), lookup_insert_ne, Hkeep by (by intros E').
    unfold chmod. cbn [fs set_fs]. rewrite (stat_lookup _ _ Htparts). fold target.
    rewrite lookup_insert_eq. by rewrite insert_insert_eq. }
  unfold init_cmd. cbv zeta.
  rewrite (bind_ok _ _ _ _ _ (mkdir_ok _ _ Hmk)). fold (made output w). fold w1.
  rewrite bind_run. unfold exists_. rewrite (stat_lookup _ _ Hparts), Hkeep.
  cbn [negb]. rewrite bind_run. cbn [mret M_ret].
  fold (init_target template output).
  rewrite (bind_ok _ _ _ _ _ Hcopy).
  rewrite bind_run, (replace_metadata_run_mode _ _ _ b content).
  2:{ rewrite (stat_lookup _ _ Htparts). cbn. fold target. apply lookup_insert_eq. }
  subst w1. cbn [clock set_fs fs stdout spawned].
  destruct (replacements cfg (clock w)) as [e|reps]; [done|].
  destruct b; [|done].
  rewrite !bind_run. unfold print. cbn [clock set_fs fs stdout spawned].
  fold target. rewrite insert_insert_eq. by rewrite <- List.app_assoc.
Qed.

(** The whole of [init] on a ready file system. *)
Lemma init_cmd_run (template output content : string) (cfg : pyval) (w : World) :
  init_ready w template output content ->
  let target := path_str (init_target template output) in
  init_cmd py_repr template output cfg w
  = match replacements cfg (clock w) with
    | inr reps =>
        (inr tt,
         {| fs := <[target := File true (substitute py_repr reps (universal_newlines content))]>
                    (made output w);
            stdout := stdout w ++ ["[+] Template copied to " +:+ target;
                                   "[+] Edit the Markdown file, then run `generate`"];
            spawned := spawned w; clock := clock w |})
    | inl e =>
        (inl e,
         {| fs := <[target := File true content]> (made output w);
            stdout := stdout w; spawned := spawned w; clock := clock w |})
    end.
Proof. intros H target. by rewrite (init_cmd_run_mode _ _ _ _ _ _ H). Qed.

(** The rewritten file, line by line. *)
Lemma substitute_lines (t a d : pyval) (content : string) (ls : list string) :
  universal_newlines content = join newline ls ->
  let reps := [("title", t); ("author", a); ("date", d)] in
  let out := List.map (substitute py_repr reps) ls in
  substitute py_repr reps (universal_newlines content) = join newline out
  /\ length out = length ls
  /\ forall i l, List.nth_error ls i = Some l -> has_placeholder l = false ->
                List.nth_error out i = Some l.
Proof.
  intros E reps out. split; [|split].
  - rewrite E. apply substitute_join.
  - apply List.length_map.
  - intros i l Hi Hl. subst out.
    rewrite (List.map_nth_error _ _ _ Hi). f_equal. by apply substitute_absent.
Qed.

Lemma replace_exact (old new : string) : old <> "" -> replace old new old = new.
Proof.
  destruct old as [|c old]; [done|]. intros _.
  rewrite <- (app_nil_r (String c old)) at 2.
  by rewrite replace_match, replace_nil, app_nil_r.
Qed.

(** **** The placeholder lines *)

Lemma substitute_title_line (T : string) (a d : pyval) :
  contains author_ph (stamped "title" T) = false ->
  contains date_ph (stamped "title" T) = false ->
  substitute py_repr [("title", PStr T); ("author", a); ("date", d)] title_ph
  = stamped "title" T.
Proof.
  intros Ha Hd. rewrite substitute_three. cbn [py_str].
  rewrite (replace_exact title_ph) by done.
  by rewrite (replace_absent author_ph), (replace_absent date_ph).
Qed.

Lemma substitute_author_line (t : pyval) (A : string) (d : pyval) :
  contains date_ph (stamped "author" A) = false ->
  substitute py_repr [("title", t); ("author", PStr A); ("date", d)] author_ph
  = stamped "author" A.
Proof.
  intros Hd. rewrite substitute_three. cbn [py_str].
  rewrite (replace_absent title_ph) by done.
  rewrite (replace_exact author_ph) by done.
  by rewrite (replace_absent date_ph).
Qed.

Lemma substitute_date_line (t a : pyval) (D : string) :
  substitute py_repr [("title", t); ("author", a); ("date", PStr D)] date_ph
  = stamped "date" D.
Proof.
  rewrite substitute_three. cbn [py_str].
  rewrite (replace_absent title_ph), (replace_absent author_ph) by done.
  by rewrite (replace_exact date_ph).
Qed.

(** With the default in place of a missing value the pattern is
    replaced by itself. *)
Lemma substitute_title_default (a d : pyval) :
  substitute py_repr [("title", PStr ""); ("author", a); ("date", d)] title_ph = title_ph.
Proof.
  rewrite substitute_three. cbn [py_str].
  change (stamped "title" "") with title_ph.
  rewrite (replace_same title_ph) by done.
  by rewrite (replace_absent author_ph), (replace_absent date_ph).
Qed.

Lemma substitute_author_default (t d : pyval) :
  substitute py_repr [("title", t); ("author", PStr ""); ("date", d)] author_ph = author_ph.
Proof.
  rewrite substitute_three. cbn [py_str].
  change (stamped "author" "") with author_ph.
  rewrite (replace_absent title_ph) by done.
  rewrite (replace_same author_ph) by done.
  by rewrite (replace_absent date_ph).
Qed.

(** *** [generate] *)

Lemma argument_str (s : string) : mem "000" s = false -> argument (PStr s) = inr s.
Proof. intros H. cbn. by rewrite H. Qed.

(** The archive step, from the world [w2] the converter left. *)
Lemma archive_step_run (output : string) (pdf : PurePath) (w2 : World) :
  mem "000" (path_str (archive_path output pdf)) = false ->
  mem "000" (path_str pdf) = false ->
  (print "[+] Creating archive...";;
   run spawn [PStr "7z"; PStr "a"; PStr (path_str (archive_path output pdf)); PStr (path_str pdf)];;
   checksum ← md5sum md5_hexdigest (archive_path output pdf);
   print ("[+] Archive: " +:+ path_str (archive_path output pdf));;
   print ("[+] MD5: " +:+ checksum)) w2
  = match spawn (archive_cmd output pdf) (fs w2) with
    | NoSuchProgram =>
        (inl FileNotFoundError,
         after w2 (fs w2) ["[+] Creating archive..."] [archive_cmd output pdf])
    | Exited rc m =>
        if Z.eqb rc 0 then
          match stat m (archive_path output pdf) with
          | Some (File _ data) =>
              (inr tt,
               after w2 m ["[+] Creating archive...";
                           "[+] Archive: " +:+ path_str (archive_path output pdf);
                           "[+] MD5: " +:+ md5_hexdigest data]
                     [archive_cmd output pdf])
          | Some Dir =>
              (inl IsADirectoryError,
               after w2 m ["[+] Creating archive..."] [archive_cmd output pdf])
          | None =>
              (inl (missing_error m (archive_path output pdf)),
               after w2 m ["[+] Creating archive..."] [archive_cmd output pdf])
          end
        else (inl (CalledProcessError rc),
              after w2 m ["[+] Creating archive..."] [archive_cmd output pdf])
    end.
Proof.
  intros Harchive Hpdf.
  rewrite bind_run. unfold print at 1. rewrite bind_run.
  unfold run. cbn [argv]. rewrite !argument_str by done.
  cbn [and_then fs stdout spawned clock].
  fold (archive_cmd output pdf).
  destruct (spawn (archive_cmd output pdf) (fs w2)) as [|rc m]; [done|].
  destruct (Z.eqb rc 0); [|done].
  rewrite bind_run. unfold md5sum. rewrite bind_run.
  unfold read_bytes, open_read. cbn [fs set_fs].
  destruct (stat m (archive_path output pdf)) as [[b data|]|]; [|done|done].
  cbn [mret M_ret]. rewrite bind_run. unfold print, after. cbn.
  by rewrite <- !List.app_assoc.
Qed.

(** The whole of [generate], once the output directory can be created
    and the command line is built. *)
Lemma generate_cmd_run (input output : string) (cfg : pyval) (w : World)
    (pdf : PurePath) (cmd : list pyval) (args : list string) :
  List.existsb (is_file (fs w)) (lineage (Path output)) = false ->
  pdf_path output cfg = inr pdf ->
  pandoc_cmd py_repr input pdf cfg = inr cmd ->
  argv cmd = inr args ->
  generate_cmd py_repr spawn md5_hexdigest input output cfg w
  = match spawn args (made output w) with
    | NoSuchProgram =>
        (inl FileNotFoundError, after w (made output w) ["[+] Generating PDF..."] [args])
    | Exited rc m =>
        if Z.eqb rc 0 then
          let w2 := after w m ["[+] Generating PDF..."; "[+] PDF generated: " +:+ path_str pdf]
                          [args] in
          match archive_flag cfg with
          | inl e => (inl e, w2)
          | inr flag =>
              if truthy flag then
                (print "[+] Creating archive...";;
                 run spawn [PStr "7z"; PStr "a";
                            PStr (path_str (archive_path output pdf)); PStr (path_str pdf)];;
                 checksum ← md5sum md5_hexdigest (archive_path output pdf);
                 print ("[+] Archive: " +:+ path_str (archive_path output pdf));;
                 print ("[+] MD5: " +:+ checksum)) w2
              else (inr tt, w2)
          end
        else (inl (CalledProcessError rc), after w m ["[+] Generating PDF..."] [args])
    end.
Proof.
  intros Hmk Hpdf Hcmd Hargv. unfold generate_cmd. cbv zeta.
  rewrite (bind_ok _ _ _ _ _ (mkdir_ok _ _ Hmk)). fold (made output w).
  fold (pdf_path output cfg). rewrite Hpdf.
  rewrite bind_run. unfold lift at 1. rewrite bind_run. unfold lift at 1. rewrite Hcmd.
  rewrite bind_run. unfold print at 1. rewrite bind_run.
  unfold run at 1. rewrite Hargv. cbn [fs stdout spawned clock set_fs].
  destruct (spawn args (made output w)) as [|rc m]; [done|].
  destruct (Z.eqb rc 0); [|done].
  rewrite bind_run. unfold print at 1. cbn [fs stdout spawned clock set_fs].
  rewrite bind_run. fold (archive_flag cfg). unfold lift.
  unfold after. rewrite <- !List.app_assoc. cbn [app].
  destruct (archive_flag cfg) as [e|flag]; [done|].
  destruct (truthy flag); done.
Qed.

(** A lookup that fails before the converter is run ends [generate]
    there. *)
Lemma generate_cmd_lookup_fails (input output : string) (cfg : pyval) (w : World) (e : exn) :
  List.existsb (is_file (fs w)) (lineage (Path output)) = false ->
  pdf_path output cfg = inl e
  \/ (exists pdf, pdf_path output cfg = inr pdf /\ pandoc_cmd py_repr input pdf cfg = inl e) ->
  generate_cmd py_repr spawn md5_hexdigest input output cfg w
  = (inl e, after w (made output w) [] []).
Proof.
  intros Hmk H. unfold generate_cmd. cbv zeta.
  rewrite (bind_ok _ _ _ _ _ (mkdir_ok _ _ Hmk)). fold (made output w).
  fold (pdf_path output cfg). unfold after. rewrite !List.app_nil_r.
  rewrite bind_run. unfold lift at 1.
  destruct H as [->|(pdf & -> & H)]; [done|].
  rewrite bind_run. unfold lift at 1. by rewrite H.
Qed.

(** A command line that [subprocess.run] refuses ends [generate] after
    the line that announces the conversion. *)
Lemma generate_cmd_refused (input output : string) (cfg : pyval) (w : World)
    (pdf : PurePath) (cmd : list pyval) (e : exn) :
  List.existsb (is_file (fs w)) (lineage (Path output)) = false ->
  pdf_path output cfg = inr pdf ->
  pandoc_cmd py_repr input pdf cfg = inr cmd ->
  argv cmd = inl e ->
  generate_cmd py_repr spawn md5_hexdigest input output cfg w
  = (inl e, after w (made output w) ["[+] Generating PDF..."] []).
Proof.
  intros Hmk Hpdf Hcmd Hargv. unfold generate_cmd. cbv zeta.
  rewrite (bind_ok _ _ _ _ _ (mkdir_ok _ _ Hmk)). fold (made output w).
  fold (pdf_path output cfg). rewrite Hpdf.
  rewrite bind_run. unfold lift at 1. rewrite bind_run. unfold lift at 1. rewrite Hcmd.
  rewrite bind_run. unfold print at 1. rewrite bind_run.
  unfold run at 1. rewrite Hargv. unfold after. cbn. by rewrite List.app_nil_r.
Qed.

(** When the output directory cannot be created, [generate] ends
    there. *)
Lemma generate_cmd_blocked (input output : string) (cfg : pyval) (w : World) :
  List.existsb (is_file (fs w)) (lineage (Path output)) = true ->
  exists e, generate_cmd py_repr spawn md5_hexdigest input output cfg w = (inl e, w).
Proof.
  intros Hmk. unfold generate_cmd. cbv zeta. rewrite bind_run.
  unfold mkdir. cbv zeta. rewrite Hmk.
  destruct (List.existsb _ (List.removelast _)); by eexists.
Qed.

(** *** Changes made through the tools *)

Lemma replay_app (cmds1 cmds2 : list (list string)) (m : gmap string node) :
  replay spawn (cmds1 ++ cmds2) m = replay spawn cmds2 (replay spawn cmds1 m).
Proof. apply List.fold_left_app. Qed.

Lemma through_tools_bind {A B : Type} (m : M A) (f : A -> M B) :
  through_tools spawn m -> (forall x, through_tools spawn (f x)) ->
  through_tools spawn (m ≫= f).
Proof.
  intros Hm Hf w. rewrite bind_run. destruct (Hm w) as (c1 & Hs1 & Hf1).
  destruct (m w) as [[e|x] w']; cbn [snd] in *; [by exists c1|].
  destruct (Hf x w') as (c2 & Hs2 & Hf2). exists (c1 ++ c2).
  by rewrite Hs2, Hs1, Hf2, Hf1, replay_app, List.app_assoc.
Qed.

Lemma through_tools_still {A : Type} (c : M A) :
  (forall w, spawned (snd (c w)) = spawned w /\ fs (snd (c w)) = fs w) ->
  through_tools spawn c.
Proof. intros H w. exists []. destruct (H w) as [-> ->]. by rewrite List.app_nil_r. Qed.

Lemma through_tools_print (line : string) : through_tools spawn (print line).
Proof. by apply through_tools_still. Qed.

Lemma through_tools_run (cmd : list pyval) : through_tools spawn (run spawn cmd).
Proof.
  intros w. unfold run. destruct (argv cmd) as [e|args].
  - exists []. by rewrite List.app_nil_r.
  - exists [args]. cbn [replay List.fold_left].
    destruct (spawn args (fs w)) as [|rc m]; [done|]. by destruct (Z.eqb rc 0).
Qed.

Lemma through_tools_md5sum (file : PurePath) : through_tools spawn (md5sum md5_hexdigest file).
Proof.
  apply through_tools_still. intros w.
  unfold md5sum, read_bytes, open_read. rewrite bind_run.
  by destruct (stat (fs w) file) as [[]|].
Qed.

Lemma through_tools_archive_step (archive pdf : PurePath) :
  through_tools spawn
    (print "[+] Creating archive...";;
     run spawn [PStr "7z"; PStr "a"; PStr (path_str archive); PStr (path_str pdf)];;
     checksum ← md5sum md5_hexdigest archive;
     print ("[+] Archive: " +:+ path_str archive);;
     print ("[+] MD5: " +:+ checksum)).
Proof.
  apply through_tools_bind; [apply through_tools_print|intros _].
  apply through_tools_bind; [apply through_tools_run|intros _].
  apply through_tools_bind; [apply through_tools_md5sum|intros checksum].
  apply through_tools_bind; [apply through_tools_print|intros _].
  apply through_tools_print.
Qed.

(** Once the command line is accepted, it is the first that [generate]
    runs; the file system is then what the tools made of the one with
    the output directory. *)
Lemma generate_cmd_trace (input output : string) (cfg : pyval) (w : World)
    (pdf : PurePath) (cmd : list pyval) (args : list string) :
  List.existsb (is_file (fs w)) (lineage (Path output)) = false ->
  pdf_path output cfg = inr pdf ->
  pandoc_cmd py_repr input pdf cfg = inr cmd ->
  argv cmd = inr args ->
  exists later,
    spawned (snd (generate_cmd py_repr spawn md5_hexdigest input output cfg w))
    = spawned w ++ args :: later
    /\ fs (snd (generate_cmd py_repr spawn md5_hexdigest input output cfg w))
       = replay spawn (args :: later) (made output w).
Proof.
  intros Hmk Hpdf Hcmd Hargv.
  rewrite (generate_cmd_run _ _ _ _ _ _ _ Hmk Hpdf Hcmd Hargv).
  cbn [replay List.fold_left].
  destruct (spawn args (made output w)) as [|rc m]; [by exists []|].
  destruct (Z.eqb rc 0); [|by exists []]. cbv zeta.
  destruct (archive_flag cfg) as [e|flag]; [by exists []|].
  destruct (truthy flag); [|by exists []].
  destruct (through_tools_archive_step (archive_path output pdf) pdf
              (after w m ["[+] Generating PDF..."; "[+] PDF generated: " +:+ path_str pdf]
                     [args])) as (later & Hs & Hf).
  exists later. rewrite Hs, Hf. cbn [after spawned fs].
  by rewrite <- List.app_assoc.
Qed.

(** Every run of [generate] either hands nothing to [subprocess.run] or
    starts with the converter's command line. *)
Lemma generate_cmd_spawned (input output : string) (cfg : pyval) (w : World) :
  spawned (snd (generate_cmd py_repr spawn md5_hexdigest input output cfg w)) = spawned w
  \/ exists pdf cmd args later,
       pdf_path output cfg = inr pdf
       /\ pandoc_cmd py_repr input pdf cfg = inr cmd
       /\ argv cmd = inr args
       /\ spawned (snd (generate_cmd py_repr spawn md5_hexdigest input output cfg w))
          = spawned w ++ args :: later.
Proof.
  destruct (List.existsb (is_file (fs w)) (lineage (Path output))) eqn:Hmk.
  { left. by destruct (generate_cmd_blocked input output cfg w Hmk) as [e ->]. }
  destruct (pdf_path output cfg) as [e|pdf] eqn:Hpdf.
  { left. rewrite (generate_cmd_lookup_fails _ _ _ _ e Hmk (or_introl Hpdf)).
    cbn. by rewrite List.app_nil_r. }
  destruct (pandoc_cmd py_repr input pdf cfg) as [e|cmd] eqn:Hcmd.
  { left. rewrite (generate_cmd_lookup_fails _ _ _ _ e Hmk); [cbn; by rewrite List.app_nil_r|].
    right. by exists pdf. }
  destruct (argv cmd) as [e|args] eqn:Hargv.
  { left. rewrite (generate_cmd_refused _ _ _ _ _ _ e Hmk Hpdf Hcmd Hargv).
    cbn. by rewrite List.app_nil_r. }
  right. destruct (generate_cmd_trace _ _ _ _ _ _ _ Hmk Hpdf Hcmd Hargv) as (later & Hs & _).
  by exists pdf, cmd, args, later.
Qed.

(** ** The claims about [init] *)

(** C1 (as amended): when the lines of the template include the three
    placeholder lines and the config gives the title [T] and the author
    [A], strings whose stamped lines do not themselves contain a pattern
    that a later turn of the loop rewrites, [init] on a ready file system
    (the output directory can be created; the template is a regular file
    the process may write; the target is not the template, not a
    directory and not a file the process may not write) returns normally
    and the copy holds, line for line, the stamped title, author and date
    (today in ISO form), and every line of the template that contains
    none of the three patterns is unchanged. *)
Theorem init_stamps_placeholder_lines
    (w : World) (template output content T A : string)
    (cfg : pyval) (md : list (pyval * pyval)) (ls : list string) :
  init_ready w template output content ->
  universal_newlines content = join newline ls ->
  In title_ph ls -> In author_ph ls -> In date_ph ls ->
  subscript cfg "metadata" = inr (PDict md) ->
  dict_lookup md "title" = Some (PStr T) ->
  dict_lookup md "author" = Some (PStr A) ->
  contains author_ph (stamped "title" T) = false ->
  contains date_ph (stamped "title" T) = false ->
  contains date_ph (stamped "author" A) = false ->
  exists out : list string,
    fst (init_cmd py_repr template output cfg w) = inr tt
    /\ fs (snd (init_cmd py_repr template output cfg w)) !! path_str (init_target template output)
       = Some (File true (join newline out))
    /\ length out = length ls
    /\ In (stamped "title" T) out
    /\ In (stamped "author" A) out
    /\ In (stamped "date" (isoformat (clock w))) out
    /\ forall i l, List.nth_error ls i = Some l -> has_placeholder l = false ->
                  List.nth_error out i = Some l.
Proof.
  intros Hready Hls Ht Ha Hd Hmd HT HA Hta Htd Had.
  rewrite (init_cmd_run _ _ _ _ _ Hready), (replacements_dict _ _ _ Hmd), HT, HA.
  cbn [default fst snd fs].
  set (reps := [("title", PStr T); ("author", PStr A); ("date", PStr (isoformat (clock w)))]).
  destruct (substitute_lines (PStr T) (PStr A) (PStr (isoformat (clock w))) _ _ Hls)
    as (E & Hlen & Hfix).
  exists (List.map (substitute py_repr reps) ls).
  split; [done|]. split; [rewrite lookup_insert_eq; do 2 f_equal; exact E|]. split; [done|].
  split; [|split; [|split; [|done]]].
  - rewrite <- (substitute_title_line T (PStr A) (PStr (isoformat (clock w)))) by done.
    by apply List.in_map.
  - rewrite <- (substitute_author_line (PStr T) A (PStr (isoformat (clock w)))) by done.
    by apply List.in_map.
  - rewrite <- (substitute_date_line (PStr T) (PStr A) (isoformat (clock w))).
    by apply List.in_map.
Qed.

(** C2: whatever the template text and the config, [replace_metadata]
    either raises on the config lookups and leaves the file as it was,
    or goes on to write: a file the process may write then holds, line
    for line, the template with every line that contains none of the
    three patterns unchanged (a text without the patterns is no error),
    and a file the process may not write is refused and left as it
    was. *)
Theorem replace_metadata_only_rewrites_patterns
    (w : World) (md_file : PurePath) (cfg : pyval) (writable : bool) (content : string)
    (ls : list string) :
  stat (fs w) md_file = Some (File writable content) ->
  universal_newlines content = join newline ls ->
  match replacements cfg (clock w) with
  | inl e => replace_metadata py_repr md_file cfg w = (inl e, w)
  | inr _ =>
      if writable then
        exists out : list string,
          replace_metadata py_repr md_file cfg w
          = (inr tt, set_fs w (<[path_str md_file := File true (join newline out)]> (fs w)))
          /\ length out = length ls
          /\ forall i l, List.nth_error ls i = Some l -> has_placeholder l = false ->
                        List.nth_error out i = Some l
      else replace_metadata py_repr md_file cfg w = (inl PermissionError, w)
  end.
Proof.
  intros Hfile Hls. rewrite (replace_metadata_run_mode _ _ _ _ _ Hfile).
  destruct (replacements cfg (clock w)) as [e|reps] eqn:E; [done|].
  destruct writable; [|done].
  destruct (replacements_shape _ _ _ E) as (t & a & ->).
  destruct (substitute_lines t a (PStr (isoformat (clock w))) _ _ Hls) as (E' & Hlen & Hfix).
  eexists. split; [do 4 f_equal; exact E'|]. by split.
Qed.

(** C3 (as amended): when the text of the template contains none of the
    three patterns and the config has a metadata mapping, [init] on a
    ready file system (the output directory can be created; the template
    is a regular file the process may write; the target is not the
    template, not a directory and not a file the process may not write)
    returns normally and the copy holds the template's text with its
    line endings normalised to line feeds; for a template without
    carriage returns the copy is identical to the template. *)
Theorem init_copies_text_without_patterns
    (w : World) (template output content : string)
    (cfg : pyval) (md : list (pyval * pyval)) :
  init_ready w template output content ->
  subscript cfg "metadata" = inr (PDict md) ->
  has_placeholder (universal_newlines content) = false ->
  fst (init_cmd py_repr template output cfg w) = inr tt
  /\ fs (snd (init_cmd py_repr template output cfg w)) !! path_str (init_target template output)
     = Some (File true (universal_newlines content))
  /\ (mem CR content = false ->
      fs (snd (init_cmd py_repr template output cfg w)) !! path_str (init_target template output)
      = Some (File true content)).
Proof.
  intros Hready Hmd Hnone.
  rewrite (init_cmd_run _ _ _ _ _ Hready), (replacements_dict _ _ _ Hmd).
  cbn [fst snd fs]. rewrite lookup_insert_eq, substitute_absent by done.
  split; [done|]. split; [done|]. intros Hcr. by rewrite universal_newlines_no_cr.
Qed.

(** C9 (as amended): when the metadata section is a mapping that lacks
    [title] (or [author]), [init] on a ready file system (the output
    directory can be created; the template is a regular file the process
    may write; the target is not the template, not a directory and not a
    file the process may not write) returns normally, the missing value
    is the empty string, and every [title: ""] (or [author: ""]) line of
    the template is the same line in the copy. *)
Theorem init_defaults_missing_title_author
    (w : World) (template output content : string)
    (cfg : pyval) (md : list (pyval * pyval)) (ls : list string) :
  init_ready w template output content ->
  universal_newlines content = join newline ls ->
  subscript cfg "metadata" = inr (PDict md) ->
  exists (t a : pyval) (out : list string),
    replacements cfg (clock w)
    = inr [("title", t); ("author", a); ("date", PStr (isoformat (clock w)))]
    /\ fst (init_cmd py_repr template output cfg w) = inr tt
    /\ fs (snd (init_cmd py_repr template output cfg w)) !! path_str (init_target template output)
       = Some (File true (join newline out))
    /\ length out = length ls
    /\ (dict_lookup md "title" = None ->
        t = PStr "" /\
        forall i, List.nth_error ls i = Some title_ph -> List.nth_error out i = Some title_ph)
    /\ (dict_lookup md "author" = None ->
        a = PStr "" /\
        forall i, List.nth_error ls i = Some author_ph -> List.nth_error out i = Some author_ph).
Proof.
  intros Hready Hls Hmd.
  rewrite (init_cmd_run _ _ _ _ _ Hready), (replacements_dict _ _ _ Hmd).
  cbn [fst snd fs].
  set (t := default (PStr "") (dict_lookup md "title")).
  set (a := default (PStr "") (dict_lookup md "author")).
  set (d := PStr (isoformat (clock w))).
  destruct (substitute_lines t a d _ _ Hls) as (E & Hlen & _).
  exists t, a, (List.map (substitute py_repr [("title", t); ("author", a); ("date", d)]) ls).
  split; [done|]. split; [done|]. split; [rewrite lookup_insert_eq; do 2 f_equal; exact E|].
  split; [done|]. split.
  - intros Hnone. subst t. rewrite Hnone. cbn [default]. split; [done|].
    intros i Hi. rewrite (List.map_nth_error _ _ _ Hi).
    by rewrite substitute_title_default.
  - intros Hnone. subst a. rewrite Hnone. cbn [default]. split; [done|].
    intros i Hi. rewrite (List.map_nth_error _ _ _ Hi).
    by rewrite substitute_author_default.
Qed.

(** ** The claims about the config file *)

Lemma open_text_file (path : string) (b : bool) (text : string) (w : World) :
  names_directory path = false ->
  stat (fs w) (Path path) = Some (File b text) ->
  open_text path w = (inr (universal_newlines text), w).
Proof.
  intros Hnd Hfile. unfold open_text. destruct path as [|c path]; [done|].
  by rewrite Hfile, Hnd.
Qed.

Lemma load_config_ok (path : string) (b : bool) (text : string) (cfg : pyval) (w : World) :
  names_directory path = false ->
  stat (fs w) (Path path) = Some (File b text) ->
  safe_load (universal_newlines text) = Some cfg ->
  load_config safe_load path w = (inr cfg, w).
Proof.
  intros Hnd Hfile Hload. unfold load_config, try_except.
  rewrite (bind_ok _ _ _ _ _ (open_text_file _ _ _ _ Hnd Hfile)). by rewrite Hload.
Qed.

Lemma load_config_missing (path : string) (w : World) :
  path = "" \/ (stat (fs w) (Path path) = None /\ below_file (fs w) (Path path) = false) ->
  load_config safe_load path w
  = (inl (SystemExit 1), after w (fs w) ["[!] Config file not found: " +:+ path] []).
Proof.
  intros H. unfold load_config, try_except, after.
  rewrite List.app_nil_r.
  destruct path as [|c path].
  - reflexivity.
  - destruct H as [H|[H Hb]]; [done|].
    rewrite bind_run. unfold open_text, missing_error. by rewrite H, Hb.
Qed.

(** C4 (as amended): when the config path names nothing and no regular
    file stands where one of its directories should be (or the path is
    the empty string), [main], for [init] and for [generate] alike,
    prints the not-found message and ends with status [1]; the file
    system is as it was and nothing was run. *)
Theorem main_config_not_found (path : string) (cmd : Command) (w : World) :
  path = "" \/ (stat (fs w) (Path path) = None /\ below_file (fs w) (Path path) = false) ->
  main py_repr safe_load spawn md5_hexdigest {| config := path; command := cmd |} w
  = (inl (SystemExit 1), after w (fs w) ["[!] Config file not found: " +:+ path] [])
  /\ exit_status (fst (main py_repr safe_load spawn md5_hexdigest
                         {| config := path; command := cmd |} w)) = 1%Z.
Proof.
  intros H. unfold main. cbn [config command].
  by rewrite (bind_raise _ _ _ _ _ (load_config_missing _ _ H)).
Qed.

(** ** The claims about [generate] *)

(** C5: when the converter exits with a status other than zero, the run
    of [generate] ends with status [1] on [CalledProcessError]: the file
    system is what the converter left, the converter's command line is
    the only one run, and nothing is printed after the line that
    announces the conversion.  The config path names a regular file, in
    a form that [open] takes for a file. *)
Theorem generate_aborts_on_converter_failure
    (path text input output : string) (writable : bool) (cfg : pyval) (w : World)
    (pdf : PurePath) (cmd : list pyval) (args : list string)
    (rc : Z) (m : gmap string node) :
  names_directory path = false ->
  stat (fs w) (Path path) = Some (File writable text) ->
  safe_load (universal_newlines text) = Some cfg ->
  List.existsb (is_file (fs w)) (lineage (Path output)) = false ->
  pdf_path output cfg = inr pdf ->
  pandoc_cmd py_repr input pdf cfg = inr cmd ->
  argv cmd = inr args ->
  spawn args (made output w) = Exited rc m ->
  rc <> 0%Z ->
  main py_repr safe_load spawn md5_hexdigest
       {| config := path; command := generate input output |} w
  = (inl (CalledProcessError rc), after w m ["[+] Generating PDF..."] [args])
  /\ exit_status (fst (main py_repr safe_load spawn md5_hexdigest
                         {| config := path; command := generate input output |} w)) = 1%Z.
Proof.
  intros Hnd Hfile Hload Hmk Hpdf Hcmd Hargv Hrun Hrc.
  unfold main. cbn [config command].
  rewrite (bind_ok _ _ _ _ _ (load_config_ok _ _ _ _ _ Hnd Hfile Hload)).
  rewrite (generate_cmd_run _ _ _ _ _ _ _ Hmk Hpdf Hcmd Hargv), Hrun.
  apply Z.eqb_neq in Hrc. by rewrite Hrc.
Qed.

(** The command line starts with the program, the input and the output
    option. *)
Lemma pandoc_cmd_head (input : string) (pdf : PurePath) (cfg : pyval) (cmd : list pyval) :
  pandoc_cmd py_repr input pdf cfg = inr cmd ->
  exists rest, cmd = PStr "pandoc" :: PStr input :: PStr "-o" :: PStr (path_str pdf) :: rest.
Proof.
  unfold pandoc_cmd, and_then.
  repeat match goal with
         | |- context [match ?x with _ => _ end] =>
             lazymatch x with
             | context [match _ with _ => _ end] => fail
             | _ => destruct x
             end
         end;
    intros [= <-]; eexists; reflexivity.
Qed.

Lemma argv_head (s : string) (cmd : list pyval) (args : list string) :
  argv (PStr s :: cmd) = inr args ->
  exists rest, args = s :: rest /\ argv cmd = inr rest /\ mem "000" s = false.
Proof.
  cbn [argv argument]. unfold and_then.
  destruct (mem "000" s); [done|]. destruct (argv cmd) as [e|rest]; [done|].
  intros [= <-]. by exists rest.
Qed.

(** A command line that [subprocess.run] accepts starts with the
    program, the input and the output option, none with a NUL. *)
Lemma converter_args_head (input : string) (pdf : PurePath) (cfg : pyval)
    (cmd : list pyval) (args : list string) :
  pandoc_cmd py_repr input pdf cfg = inr cmd ->
  argv cmd = inr args ->
  (exists rest, args = "pandoc" :: input :: "-o" :: path_str pdf :: rest)
  /\ mem "000" (path_str pdf) = false.
Proof.
  intros Hcmd Hargv.
  destruct (pandoc_cmd_head _ _ _ _ Hcmd) as [rest ->].
  apply argv_head in Hargv as (r1 & -> & Hargv & _).
  apply argv_head in Hargv as (r2 & -> & Hargv & _).
  apply argv_head in Hargv as (r3 & -> & Hargv & _).
  apply argv_head in Hargv as (r4 & -> & Hargv & Hnul).
  split; [by exists r4|done].
Qed.

Lemma pdf_path_joinpath (output : string) (cfg : pyval) (pdf : PurePath) :
  pdf_path output cfg = inr pdf ->
  exists o N, subscript cfg "output" = inr o /\ subscript o "pdf_name" = inr (PStr N)
              /\ pdf = joinpath (Path output) N.
Proof.
  unfold pdf_path, and_then, truediv.
  destruct (subscript cfg "output") as [|o]; [done|].
  destruct (subscript o "pdf_name") as [|v] eqn:E; [done|].
  destruct v; try done. intros [= <-]. by eexists _, _.
Qed.

(** C6 (as amended): with [pdf_name] a string [N], every command line
    that [generate] runs first is the converter's, with [-o] followed by
    the string of the path [output / N]: [N] itself when [N] is
    absolute, the two joined by a slash when the output directory and a
    relative [N] are written in normal form.  When the output directory
    can be created and the command line is accepted, it is run; when the
    converter then cannot be started or exits with a status other than
    zero, [generate] raises at once: nothing more is run or printed, and
    the file system is what the converter left; when the converter did
    not start, it is the one with the output directory, where a PDF
    path that is not that directory or an ancestor of it holds what it
    held before. *)
Theorem generate_passes_pdf_path
    (input output N : string) (cfg o : pyval) (w : World) :
  subscript cfg "output" = inr o ->
  subscript o "pdf_name" = inr (PStr N) ->
  (forall first later,
     spawned (snd (generate_cmd py_repr spawn md5_hexdigest input output cfg w))
     = spawned w ++ first :: later ->
     exists rest,
       first = "pandoc" :: input :: "-o" :: path_str (joinpath (Path output) N) :: rest)
  /\ (root (Path N) <> "" -> joinpath (Path output) N = Path N)
  /\ (path_str (Path output) = output -> parts (Path output) <> [] ->
      path_str (Path N) = N -> root (Path N) = "" -> parts (Path N) <> [] ->
      path_str (joinpath (Path output) N) = output +:+ "/" +:+ N)
  /\ (forall cmd args,
        List.existsb (is_file (fs w)) (lineage (Path output)) = false ->
        pandoc_cmd py_repr input (joinpath (Path output) N) cfg = inr cmd ->
        argv cmd = inr args ->
        (exists later,
           spawned (snd (generate_cmd py_repr spawn md5_hexdigest input output cfg w))
           = spawned w ++ args :: later)
        /\ match spawn args (made output w) with
           | NoSuchProgram =>
               generate_cmd py_repr spawn md5_hexdigest input output cfg w
               = (inl FileNotFoundError,
                  after w (made output w) ["[+] Generating PDF..."] [args])
               /\ (~ In (path_str (joinpath (Path output) N)) (lineage (Path output)) ->
                   fs (snd (generate_cmd py_repr spawn md5_hexdigest input output cfg w))
                     !! path_str (joinpath (Path output) N)
                   = fs w !! path_str (joinpath (Path output) N))
           | Exited rc m =>
               rc <> 0%Z ->
               generate_cmd py_repr spawn md5_hexdigest input output cfg w
               = (inl (CalledProcessError rc), after w m ["[+] Generating PDF..."] [args])
           end).
Proof.
  intros Ho HN.
  assert (Hpdf : pdf_path output cfg = inr (joinpath (Path output) N)).
  { unfold pdf_path, and_then. by rewrite Ho, HN. }
  split; [|split; [|split; [apply path_str_joinpath|]]].
  - intros first later Hs.
    destruct (generate_cmd_spawned input output cfg w)
      as [E|(pdf & cmd & args & later' & Hpdf' & Hcmd & Hargv & E)];
      rewrite E in Hs.
    + rewrite <- (List.app_nil_r (spawned w)) in Hs at 1.
      by apply List.app_inv_head in Hs.
    + apply List.app_inv_head in Hs. injection Hs as <- _.
      rewrite Hpdf in Hpdf'. injection Hpdf' as <-.
      apply (converter_args_head _ _ _ _ _ Hcmd Hargv).
  - intros Hroot. unfold joinpath. by destruct (root (Path N)).
  - intros cmd args Hmk Hcmd Hargv. split.
    + destruct (generate_cmd_trace _ _ _ _ _ _ _ Hmk Hpdf Hcmd Hargv) as (later & Hs & _).
      by exists later.
    + rewrite (generate_cmd_run _ _ _ _ _ _ _ Hmk Hpdf Hcmd Hargv).
      destruct (spawn args (made output w)) as [|rc m].
      * split; [done|]. intros Hout. cbn [snd after fs]. by apply with_dirs_out.
      * intros Hrc. apply Z.eqb_neq in Hrc. by rewrite Hrc.
Qed.

Lemma after_after (w : World) (m1 m2 : gmap string node)
    (l1 l2 : list string) (c1 c2 : list (list string)) :
  after (after w m1 l1 c1) m2 l2 c2 = after w m2 (l1 ++ l2) (c1 ++ c2).
Proof. unfold after. cbn. by rewrite <- !List.app_assoc. Qed.

(** C7 (as amended): when the archive flag is true, the converter exits
    with status zero, and the archiver exits with status zero leaving a
    regular file at the archive path, [generate] returns normally, having
    printed the archive path and the MD5 digest of that file's content.
    The output directory is an argument of the command line, which holds
    no NUL character. *)
Theorem generate_archives_and_prints_md5
    (input output data : string) (writable : bool) (cfg flag : pyval) (w : World)
    (pdf : PurePath) (cmd : list pyval) (args : list string)
    (m1 m2 : gmap string node) :
  mem "000" output = false ->
  List.existsb (is_file (fs w)) (lineage (Path output)) = false ->
  pdf_path output cfg = inr pdf ->
  pandoc_cmd py_repr input pdf cfg = inr cmd ->
  argv cmd = inr args ->
  archive_flag cfg = inr flag ->
  truthy flag = true ->
  spawn args (made output w) = Exited 0 m1 ->
  spawn (archive_cmd output pdf) m1 = Exited 0 m2 ->
  stat m2 (archive_path output pdf) = Some (File writable data) ->
  generate_cmd py_repr spawn md5_hexdigest input output cfg w
  = (inr tt,
     after w m2
       ["[+] Generating PDF...";
        "[+] PDF generated: " +:+ path_str pdf;
        "[+] Creating archive...";
        "[+] Archive: " +:+ path_str (archive_path output pdf);
        "[+] MD5: " +:+ md5_hexdigest data]
       [args; archive_cmd output pdf]).
Proof.
  intros Hout Hmk Hpdf Hcmd Hargv Hflag Htrue Hconv Harch Hfile.
  rewrite (generate_cmd_run _ _ _ _ _ _ _ Hmk Hpdf Hcmd Hargv), Hconv.
  cbn [Z.eqb]. cbv zeta. rewrite Hflag, Htrue.
  destruct (converter_args_head _ _ _ _ _ Hcmd Hargv) as [_ Hnul].
  destruct (pdf_path_joinpath _ _ _ Hpdf) as (o & N & _ & _ & ->).
  rewrite archive_step_run by (done || by apply archive_path_no_nul).
  cbn [after fs]. rewrite Harch. cbn [Z.eqb].
  rewrite Hfile. by rewrite after_after.
Qed.

(** C10: when the archive flag is true and the converter exits with
    status zero, the archiver is run on the path
    [output / (stem of the PDF path + ".7z")]: a file of the output
    directory, named by the stem and [.7z]; for a [pdf_name] of the form
    [base.ext] that is [base.7z].  The output directory is an argument
    of the command line, which holds no NUL character. *)
Theorem generate_archive_path
    (input output N : string) (cfg o flag : pyval) (w : World)
    (cmd : list pyval) (args : list string) (m1 : gmap string node) :
  mem "000" output = false ->
  List.existsb (is_file (fs w)) (lineage (Path output)) = false ->
  subscript cfg "output" = inr o ->
  subscript o "pdf_name" = inr (PStr N) ->
  pandoc_cmd py_repr input (joinpath (Path output) N) cfg = inr cmd ->
  argv cmd = inr args ->
  get o "archive" (PBool false) = inr flag ->
  truthy flag = true ->
  spawn args (made output w) = Exited 0 m1 ->
  spawned (snd (generate_cmd py_repr spawn md5_hexdigest input output cfg w))
  = spawned w ++ [args;
                  ["7z"; "a";
                   path_str (archive_path output (joinpath (Path output) N));
                   path_str (joinpath (Path output) N)]]
  /\ parent (archive_path output (joinpath (Path output) N)) = Path output
  /\ name (archive_path output (joinpath (Path output) N))
     = stem (joinpath (Path output) N) +:+ ".7z"
  /\ forall base ext,
       N = base +:+ "." +:+ ext -> mem "/" N = false ->
       base <> "" -> ext <> "" -> mem "." ext = false ->
       name (archive_path output (joinpath (Path output) N)) = base +:+ ".7z".
Proof.
  intros Hout Hmk Ho HN Hcmd Hargv Hflag Htrue Hconv.
  assert (Hpdf : pdf_path output cfg = inr (joinpath (Path output) N)).
  { unfold pdf_path, and_then. by rewrite Ho, HN. }
  assert (Hflag' : archive_flag cfg = inr flag).
  { unfold archive_flag, and_then. by rewrite Ho. }
  destruct (archive_path_spec output N) as [Hparent Hname].
  destruct (converter_args_head _ _ _ _ _ Hcmd Hargv) as [_ Hnul].
  split; [|split; [done|split; [done|]]].
  - rewrite (generate_cmd_run _ _ _ _ _ _ _ Hmk Hpdf Hcmd Hargv), Hconv.
    cbn [Z.eqb]. cbv zeta. rewrite Hflag', Htrue.
    rewrite archive_step_run by (done || by apply archive_path_no_nul).
    fold (archive_cmd output (joinpath (Path output) N)).
    cbn [after fs].
    destruct (spawn _ m1) as [|rc m2]; [cbn; by rewrite <- List.app_assoc|].
    destruct (Z.eqb rc 0); [|cbn; by rewrite <- List.app_assoc].
    destruct (stat m2 _) as [[]|]; cbn; by rewrite <- List.app_assoc.
  - intros base ext E Hs Hb He Hd. rewrite Hname. f_equal.
    apply (stem_ext _ base ext); try done.
    rewrite <- E. apply name_joinpath; [|done].
    unfold is_component. rewrite E.
    destruct base as [|c base]; [done|]. rewrite app_cons. cbn [String.eqb].
    destruct (Ascii.eqb c "."); [|done]. by destruct base.
Qed.

(** With mappings all the way, a missing subscripted key makes the
    first failing lookup a [KeyError]. *)
Lemma generate_lookups_key_error (input output : string) (cfg : pyval) :
  Forall (fun sk => found_or_missing (subscript2 cfg sk.1 sk.2)) generate_subscripts ->
  (forall v, subscript2 cfg "output" "pdf_name" = inr v -> exists N, v = PStr N) ->
  Exists (fun sk => exists k, subscript2 cfg sk.1 sk.2 = inl (KeyError k)) generate_subscripts ->
  exists k,
    pdf_path output cfg = inl (KeyError k)
    \/ (exists pdf, pdf_path output cfg = inr pdf
                    /\ pandoc_cmd py_repr input pdf cfg = inl (KeyError k)).
Proof.
  unfold generate_subscripts. intros Hall Hstr Hex.
  repeat (apply Forall_cons in Hall as [? Hall]). clear Hall.
  repeat (apply Exists_cons in Hex as [Hex|Hex]); [..|by apply Exists_nil in Hex];
    destruct Hex as [k0 Hk0]; cbn [fst snd] in *;
    unfold pdf_path, pandoc_cmd, subscript2, and_then in *;
    repeat match goal with
           | H : forall v, inr _ = inr v -> _ |- _ =>
               destruct (H _ eq_refl) as [? ->]; clear H; cbn [truediv]
           | H : forall v, inl _ = inr v -> _ |- _ => clear H
           | H : found_or_missing (inl ?e) |- _ => destruct e; try done; clear H
           | H : found_or_missing (inr _) |- _ => clear H
           | H : inr _ = inl _ |- _ => discriminate H
           | |- context [match ?x with _ => _ end] =>
               lazymatch x with
               | context [match _ with _ => _ end] => fail
               | subscript _ _ => destruct x eqn:?
               end
           | H : context [match ?x with _ => _ end] |- _ =>
               lazymatch x with
               | context [match _ with _ => _ end] => fail
               | subscript _ _ => destruct x eqn:?
               end
           end;
    try (eexists; left; reflexivity);
    try (eexists; right; eexists; split; reflexivity).
Qed.

Lemma subscript_dict (v x : pyval) (k : string) :
  subscript v k = inr x -> exists items, v = PDict items.
Proof. destruct v; try done. by eexists. Qed.

Lemma get_dict (items : list (pyval * pyval)) (k : string) (d : pyval) :
  exists x, get (PDict items) k d = inr x.
Proof. cbn. destruct (dict_lookup items k); by eexists. Qed.

(** The keys read with a default never make the lookups fail. *)
Lemma generate_lookups_defaults (input : string) (pdf : PurePath) (cfg : pyval) :
  Forall (fun sk => exists v, subscript2 cfg sk.1 sk.2 = inr v) generate_subscripts ->
  (exists cmd, pandoc_cmd py_repr input pdf cfg = inr cmd)
  /\ (exists flag, archive_flag cfg = inr flag).
Proof.
  unfold generate_subscripts. intros Hall.
  repeat (apply Forall_cons in Hall as [[? ?] Hall]). clear Hall.
  cbn [fst snd] in *. unfold subscript2, and_then in *.
  destruct (subscript cfg "output") as [|o] eqn:Eo; [done|].
  destruct (subscript cfg "pandoc") as [|pc] eqn:Epc; [done|].
  destruct (subscript cfg "paths") as [|ps] eqn:Eps; [done|].
  destruct (subscript_dict o _ _ ltac:(eassumption)) as [oi ->].
  destruct (subscript_dict pc _ _ ltac:(eassumption)) as [pi ->].
  split.
  - unfold pandoc_cmd, and_then. rewrite Epc, Eps.
    repeat match goal with H : subscript _ _ = inr _ |- _ => rewrite H; clear H end.
    destruct (get_dict pi "toc" (PBool false)) as [toc ->].
    destruct (get_dict pi "toc_depth" (PInt 6)) as [depth ->].
    destruct (get_dict pi "number_sections" (PBool false)) as [ns ->].
    destruct (truthy toc); by eexists.
  - unfold archive_flag, and_then. rewrite Eo. apply get_dict.
Qed.

(** C8 (as amended): a key read by subscription that is missing from a
    config made of mappings surfaces as an uncaught [KeyError]:
    [metadata] in [init], once the template is copied (the output
    directory can be created; the template is a regular file; the target
    is not the template, not a directory and not a file the process may
    not write); the keys of [generate_subscripts] and their sections in
    [generate], before anything is printed or run, when the output
    directory can be created, every section that is there is a mapping
    and [pdf_name], when it is there, is a string.  Either way the
    process would end with status [1].  The keys read with [.get] and a
    default make no lookup fail when they are missing. *)
Theorem missing_subscripted_key_raises :
  (forall (w : World) (template output : string) (writable : bool) (content : string)
          (items : list (pyval * pyval)),
      init_ready_mode w template output writable content ->
      dict_lookup items "metadata" = None ->
      init_cmd py_repr template output (PDict items) w
      = (inl (KeyError "metadata"),
         after w (<[path_str (init_target template output) := File writable content]>
                    (made output w))
               [] [])
      /\ exit_status (inl (KeyError "metadata")) = 1%Z)
  /\ (forall (w : World) (input output : string) (cfg : pyval),
        List.existsb (is_file (fs w)) (lineage (Path output)) = false ->
        Forall (fun sk => found_or_missing (subscript2 cfg sk.1 sk.2)) generate_subscripts ->
        (forall v, subscript2 cfg "output" "pdf_name" = inr v -> exists N, v = PStr N) ->
        Exists (fun sk => exists k, subscript2 cfg sk.1 sk.2 = inl (KeyError k))
               generate_subscripts ->
        exists k,
          generate_cmd py_repr spawn md5_hexdigest input output cfg w
          = (inl (KeyError k), after w (made output w) [] [])
          /\ exit_status (inl (KeyError k)) = 1%Z)
  /\ (forall (cfg : pyval) (md : list (pyval * pyval)) (d : date),
        subscript cfg "metadata" = inr (PDict md) ->
        exists t a,
          replacements cfg d = inr [("title", t); ("author", a); ("date", PStr (isoformat d))])
  /\ (forall (input : string) (pdf : PurePath) (cfg : pyval),
        Forall (fun sk => exists v, subscript2 cfg sk.1 sk.2 = inr v) generate_subscripts ->
        (exists cmd, pandoc_cmd py_repr input pdf cfg = inr cmd)
        /\ (exists flag, archive_flag cfg = inr flag)).
Proof.
  split; [|split; [|split]].
  - intros w template output writable content items Hready Hnone.
    rewrite (init_cmd_run_mode _ _ _ _ _ _ Hready).
    unfold replacements, and_then, subscript. rewrite Hnone.
    unfold after. by rewrite !List.app_nil_r.
  - intros w input output cfg Hmk Hall Hstr Hex.
    destruct (generate_lookups_key_error input output cfg Hall Hstr Hex) as [k Hk].
    exists k. split; [|done]. by apply generate_cmd_lookup_fails.
  - intros cfg md d Hmd. rewrite (replacements_dict _ _ _ Hmd). by do 2 eexists.
  - apply generate_lookups_defaults.
Qed.

End ReporterFacts.

(** * The claims on sample inputs *)

Ltac run_sample := vm_compute; try reflexivity; try discriminate; auto 12.

Lemma sample_init_ready :
  init_ready Sample.world "t.md" "out" (Str.join newline Sample.template_lines).
Proof. repeat split; run_sample. Defined.

(** C1, witness: the sample template on the sample config. *)
Lemma init_stamps_placeholder_lines_witness :
  exists out : list string,
    fst (init_cmd Sample.no_repr "t.md" "out" Sample.cfg Sample.world) = inr tt
    /\ fs (snd (init_cmd Sample.no_repr "t.md" "out" Sample.cfg Sample.world))
         !! path_str (init_target "t.md" "out")
       = Some (File true (Str.join newline out))
    /\ length out = length Sample.template_lines
    /\ In (stamped "title" "T") out
    /\ In (stamped "author" "A") out
    /\ In (stamped "date" (isoformat (clock Sample.world))) out
    /\ forall i l, List.nth_error Sample.template_lines i = Some l ->
                   has_placeholder l = false -> List.nth_error out i = Some l.
Proof.
  apply (init_stamps_placeholder_lines Sample.no_repr Sample.world "t.md" "out"
           (Str.join newline Sample.template_lines) "T" "A" Sample.cfg
           [(PStr "title", PStr "T"); (PStr "author", PStr "A")] Sample.template_lines);
    [exact sample_init_ready | run_sample ..].
Defined.

(** C1, counterexample: a [subtitle: ""] line is not one of the three
    placeholder lines, and [init] rewrites it with the title. *)
Lemma init_rewrites_subtitle_line :
  fst (init_cmd Sample.no_repr "t.md" "out" Sample.cfg Sample.subtitle_world) = inr tt
  /\ List.nth_error Sample.subtitle_lines 1 = Some Sample.subtitle_ph
  /\ Sample.subtitle_ph <> title_ph
  /\ Sample.subtitle_ph <> author_ph
  /\ Sample.subtitle_ph <> date_ph
  /\ fs (snd (init_cmd Sample.no_repr "t.md" "out" Sample.cfg Sample.subtitle_world)) !! "out/t.md"
     = Some (File true (Str.join newline
                     [stamped "title" "T"; "sub" +:+ stamped "title" "T";
                      stamped "author" "A"; stamped "date" "2024-03-09"]))
  /\ "sub" +:+ stamped "title" "T" <> Sample.subtitle_ph.
Proof. repeat split; run_sample. Qed.

(** C2, witness: the sample template, already copied. *)
Lemma replace_metadata_only_rewrites_patterns_witness :
  match replacements Sample.cfg (clock Sample.world) with
  | inl e => replace_metadata Sample.no_repr (Path "t.md") Sample.cfg Sample.world
             = (inl e, Sample.world)
  | inr _ =>
      exists out : list string,
        replace_metadata Sample.no_repr (Path "t.md") Sample.cfg Sample.world
        = (inr tt, set_fs Sample.world
                     (<[path_str (Path "t.md") := File true (Str.join newline out)]>
                        (fs Sample.world)))
        /\ length out = length Sample.template_lines
        /\ forall i l, List.nth_error Sample.template_lines i = Some l ->
                       has_placeholder l = false -> List.nth_error out i = Some l
  end.
Proof.
  apply (replace_metadata_only_rewrites_patterns Sample.no_repr Sample.world (Path "t.md")
           Sample.cfg true (Str.join newline Sample.template_lines) Sample.template_lines);
    run_sample.
Defined.

(** C3, witness: a template without placeholders. *)
Lemma init_copies_text_without_patterns_witness :
  fst (init_cmd Sample.no_repr "t.md" "out" Sample.cfg Sample.plain_world) = inr tt
  /\ fs (snd (init_cmd Sample.no_repr "t.md" "out" Sample.cfg Sample.plain_world))
       !! path_str (init_target "t.md" "out")
     = Some (File true (universal_newlines (Str.join newline ["# Notes"; "title: none"])))
  /\ (Str.mem CR (Str.join newline ["# Notes"; "title: none"]) = false ->
      fs (snd (init_cmd Sample.no_repr "t.md" "out" Sample.cfg Sample.plain_world))
        !! path_str (init_target "t.md" "out")
      = Some (File true (Str.join newline ["# Notes"; "title: none"]))).
Proof.
  apply (init_copies_text_without_patterns Sample.no_repr Sample.plain_world "t.md" "out"
           (Str.join newline ["# Notes"; "title: none"]) Sample.cfg
           [(PStr "title", PStr "T"); (PStr "author", PStr "A")]);
    [repeat split; run_sample | run_sample ..].
Defined.

(** C3, counterexample: a template without placeholders whose lines end
    in carriage return and line feed is copied with line feeds only. *)
Lemma init_normalises_line_endings :
  has_placeholder Sample.crlf_text = false
  /\ fst (init_cmd Sample.no_repr "t.md" "out" Sample.cfg Sample.crlf_world) = inr tt
  /\ fs (snd (init_cmd Sample.no_repr "t.md" "out" Sample.cfg Sample.crlf_world)) !! "out/t.md"
     = Some (File true (String "a" (String LF "b")))
  /\ String "a" (String LF "b") <> Sample.crlf_text.
Proof. repeat split; run_sample. Qed.

(** C9, witness: a metadata mapping without a title. *)
Lemma init_defaults_missing_title_author_witness :
  exists (t a : pyval) (out : list string),
    replacements Sample.cfg_no_title (clock Sample.world)
    = inr [("title", t); ("author", a); ("date", PStr (isoformat (clock Sample.world)))]
    /\ fst (init_cmd Sample.no_repr "t.md" "out" Sample.cfg_no_title Sample.world) = inr tt
    /\ fs (snd (init_cmd Sample.no_repr "t.md" "out" Sample.cfg_no_title Sample.world))
         !! path_str (init_target "t.md" "out")
       = Some (File true (Str.join newline out))
    /\ length out = length Sample.template_lines
    /\ (dict_lookup [(PStr "author", PStr "A")] "title" = None ->
        t = PStr "" /\
        forall i, List.nth_error Sample.template_lines i = Some title_ph ->
                  List.nth_error out i = Some title_ph)
    /\ (dict_lookup [(PStr "author", PStr "A")] "author" = None ->
        a = PStr "" /\
        forall i, List.nth_error Sample.template_lines i = Some author_ph ->
                  List.nth_error out i = Some author_ph).
Proof.
  apply (init_defaults_missing_title_author Sample.no_repr Sample.world "t.md" "out"
           (Str.join newline Sample.template_lines) Sample.cfg_no_title
           [(PStr "author", PStr "A")] Sample.template_lines);
    [exact sample_init_ready | run_sample ..].
Defined.

(** C9, counterexample: the [metadata:] section is there, it is empty
    and so lacks the title, and [init] fails on the lookup of the title,
    with the template copied and left unstamped. *)
Lemma init_empty_metadata_fails :
  subscript Sample2.cfg_empty_metadata "metadata" = inr PNone
  /\ init_cmd Sample.no_repr "t.md" "out" Sample2.cfg_empty_metadata Sample.world
     = (inl AttributeError,
        after Sample.world
          (<["out/t.md" := File true (Str.join newline Sample.template_lines)]>
             (made "out" Sample.world)) [] [])
  /\ exit_status (fst (init_cmd Sample.no_repr "t.md" "out" Sample2.cfg_empty_metadata
                               Sample.world)) = 1%Z.
Proof. repeat split; run_sample. Qed.

(** C4, witness: [init] with a config path that names no file. *)
Lemma main_config_not_found_witness :
  main Sample.no_repr Sample.load Sample.tools_work Sample.md5
       {| config := "missing.yml"; command := init "t.md" "out" |} Sample.world
  = (inl (SystemExit 1),
     after Sample.world (fs Sample.world) ["[!] Config file not found: missing.yml"] [])
  /\ exit_status (fst (main Sample.no_repr Sample.load Sample.tools_work Sample.md5
                         {| config := "missing.yml"; command := init "t.md" "out" |}
                         Sample.world)) = 1%Z.
Proof.
  apply (main_config_not_found Sample.no_repr Sample.load Sample.tools_work Sample.md5
           "missing.yml" (init "t.md" "out") Sample.world).
  right. split; run_sample.
Defined.

(** C4, counterexample: the config path runs through the template, a
    regular file: it names no file, [open] raises [NotADirectoryError],
    which [load_config] does not catch, and no message is printed. *)
Lemma main_config_below_a_file :
  stat (fs Sample.world) (Path "t.md/config.yml") = None
  /\ main Sample.no_repr Sample.load Sample.tools_work Sample.md5
          {| config := "t.md/config.yml"; command := init "t.md" "out" |} Sample.world
     = (inl NotADirectoryError, Sample.world)
  /\ main Sample.no_repr Sample.load Sample.tools_work Sample.md5
          {| config := "t.md/config.yml"; command := generate "report.md" "out" |} Sample.world
     = (inl NotADirectoryError, Sample.world)
  /\ stdout Sample.world = [].
Proof. repeat split; run_sample. Qed.

(** C5, witness: the converter exits with status 43. *)
Lemma generate_aborts_on_converter_failure_witness :
  main Sample.no_repr Sample.load Sample.converter_fails Sample.md5
       {| config := "config.yml"; command := generate "report.md" "out" |} Sample.world
  = (inl (CalledProcessError 43),
     after Sample.world (made "out" Sample.world) ["[+] Generating PDF..."]
           [Sample.converter_args])
  /\ exit_status (fst (main Sample.no_repr Sample.load Sample.converter_fails Sample.md5
                         {| config := "config.yml"; command := generate "report.md" "out" |}
                         Sample.world)) = 1%Z.
Proof.
  apply (generate_aborts_on_converter_failure
           Sample.no_repr Sample.load Sample.converter_fails Sample.md5
           "config.yml" "metadata: ..." "report.md" "out" true Sample.cfg Sample.world
           Sample.pdf (List.map PStr Sample.converter_args) Sample.converter_args
           43 (made "out" Sample.world));
    run_sample.
Defined.

(** C6, witness: no converter is installed. *)
Lemma generate_passes_pdf_path_witness :
  (forall first later,
     spawned (snd (generate_cmd Sample.no_repr Sample.nothing_installed Sample.md5
                                "report.md" "out" Sample.cfg Sample.world))
     = spawned Sample.world ++ first :: later ->
     exists rest,
       first = "pandoc" :: "report.md" :: "-o"
               :: path_str (joinpath (Path "out") "report.pdf") :: rest)
  /\ (root (Path "report.pdf") <> "" -> joinpath (Path "out") "report.pdf" = Path "report.pdf")
  /\ (path_str (Path "out") = "out" -> parts (Path "out") <> [] ->
      path_str (Path "report.pdf") = "report.pdf" -> root (Path "report.pdf") = "" ->
      parts (Path "report.pdf") <> [] ->
      path_str (joinpath (Path "out") "report.pdf") = "out" +:+ "/" +:+ "report.pdf")
  /\ (forall cmd args,
        List.existsb (is_file (fs Sample.world)) (lineage (Path "out")) = false ->
        pandoc_cmd Sample.no_repr "report.md" (joinpath (Path "out") "report.pdf") Sample.cfg
        = inr cmd ->
        argv cmd = inr args ->
        (exists later,
           spawned (snd (generate_cmd Sample.no_repr Sample.nothing_installed Sample.md5
                                      "report.md" "out" Sample.cfg Sample.world))
           = spawned Sample.world ++ args :: later)
        /\ match Sample.nothing_installed args (made "out" Sample.world) with
           | NoSuchProgram =>
               generate_cmd Sample.no_repr Sample.nothing_installed Sample.md5
                            "report.md" "out" Sample.cfg Sample.world
               = (inl FileNotFoundError,
                  after Sample.world (made "out" Sample.world) ["[+] Generating PDF..."] [args])
               /\ (~ In (path_str (joinpath (Path "out") "report.pdf")) (lineage (Path "out")) ->
                   fs (snd (generate_cmd Sample.no_repr Sample.nothing_installed Sample.md5
                                         "report.md" "out" Sample.cfg Sample.world))
                     !! path_str (joinpath (Path "out") "report.pdf")
                   = fs Sample.world !! path_str (joinpath (Path "out") "report.pdf"))
           | Exited rc m =>
               rc <> 0%Z ->
               generate_cmd Sample.no_repr Sample.nothing_installed Sample.md5
                            "report.md" "out" Sample.cfg Sample.world
               = (inl (CalledProcessError rc),
                  after Sample.world m ["[+] Generating PDF..."] [args])
           end).
Proof.
  apply (generate_passes_pdf_path Sample.no_repr Sample.nothing_installed Sample.md5
           "report.md" "out" "report.pdf" Sample.cfg
           (PDict [(PStr "pdf_name", PStr "report.pdf"); (PStr "archive", PBool true)])
           Sample.world);
    reflexivity.
Defined.

(** C6, counterexample: with the output directory [out] and the
    [pdf_name] [/tmp/r.pdf], the converter is run with [-o /tmp/r.pdf]:
    the path handed over is not [out], a slash and the name, and it is
    not in the output directory. *)
Lemma generate_absolute_pdf_name :
  subscript2 Sample2.cfg_absolute_pdf "output" "pdf_name" = inr (PStr "/tmp/r.pdf")
  /\ spawned (snd (generate_cmd Sample.no_repr Sample.nothing_installed Sample.md5
                                "report.md" "out" Sample2.cfg_absolute_pdf Sample.world))
     = [["pandoc"; "report.md"; "-o"; "/tmp/r.pdf";
         "--from"; "markdown+yaml_metadata_block+raw_html";
         "--template"; "eisvogel"; "--highlight-style"; "tango";
         "--resource-path"; "."; "--top-level-division"; "chapter"]]
  /\ "/tmp/r.pdf" <> "out" +:+ "/" +:+ "/tmp/r.pdf"
  /\ parent (Path "/tmp/r.pdf") <> Path "out".
Proof. repeat split; run_sample. Qed.

(** C7, witness: both tools work. *)
Lemma generate_archives_and_prints_md5_witness :
  generate_cmd Sample.no_repr Sample.tools_work Sample.md5
               "report.md" "out" Sample.cfg Sample.world
  = (inr tt,
     after Sample.world Sample.with_archive
       ["[+] Generating PDF...";
        "[+] PDF generated: " +:+ path_str Sample.pdf;
        "[+] Creating archive...";
        "[+] Archive: " +:+ path_str (archive_path "out" Sample.pdf);
        "[+] MD5: " +:+ Sample.md5 "7z"]
       [Sample.converter_args; archive_cmd "out" Sample.pdf]).
Proof.
  apply (generate_archives_and_prints_md5 Sample.no_repr Sample.tools_work Sample.md5
           "report.md" "out" "7z" true Sample.cfg (PBool true) Sample.world Sample.pdf
           (List.map PStr Sample.converter_args) Sample.converter_args
           Sample.with_pdf Sample.with_archive);
    run_sample.
Defined.

(** C7, counterexample: the archive flag is true and the converter
    leaves the PDF, but the archiver is not installed: the run ends on
    [FileNotFoundError], there is no archive and no digest is printed. *)
Lemma generate_without_archiver_prints_no_md5 :
  archive_flag Sample.cfg = inr (PBool true)
  /\ Sample.archiver_missing Sample.converter_args (made "out" Sample.world)
     = Exited 0 Sample.with_pdf
  /\ stat Sample.with_pdf Sample.pdf = Some (File true "%PDF")
  /\ generate_cmd Sample.no_repr Sample.archiver_missing Sample.md5
                  "report.md" "out" Sample.cfg Sample.world
     = (inl FileNotFoundError,
        after Sample.world Sample.with_pdf
          ["[+] Generating PDF..."; "[+] PDF generated: out/report.pdf";
           "[+] Creating archive..."]
          [Sample.converter_args; ["7z"; "a"; "out/report.7z"; "out/report.pdf"]])
  /\ stat Sample.with_pdf (archive_path "out" Sample.pdf) = None.
Proof. repeat split; run_sample. Qed.

(** C8, witness: a config without the [pandoc] section. *)
Lemma missing_subscripted_key_raises_witness :
  exists k,
    generate_cmd Sample.no_repr Sample.tools_work Sample.md5
                 "report.md" "out" Sample.cfg_no_pandoc Sample.world
    = (inl (KeyError k), after Sample.world (made "out" Sample.world) [] [])
    /\ exit_status (inl (KeyError k)) = 1%Z.
Proof.
  apply (proj1 (proj2 (missing_subscripted_key_raises
                         Sample.no_repr Sample.tools_work Sample.md5))
           Sample.world "report.md" "out" Sample.cfg_no_pandoc).
  - run_sample.
  - vm_compute. repeat constructor.
  - vm_compute. intros v [= <-]. by eexists.
  - apply Exists_cons. right. apply Exists_cons. left. exists "pandoc". reflexivity.
Defined.

(** C8, counterexample: [init] reads [title] from the metadata, the
    config has no [title], and [init] returns normally. *)
Lemma init_missing_title_is_no_error :
  subscript2 Sample.cfg_no_title "metadata" "title" = inl (KeyError "title")
  /\ init_cmd Sample.no_repr "t.md" "out" Sample.cfg_no_title Sample.world
     = (inr tt,
        after Sample.world
          (<["out/t.md" := File true (Str.join newline
                                   ["---"; title_ph; stamped "author" "A";
                                    stamped "date" "2024-03-09"; "---"; "# Report"])]>
             (made "out" Sample.world))
          ["[+] Template copied to out/t.md";
           "[+] Edit the Markdown file, then run `generate`"] [])
  /\ exit_status (fst (init_cmd Sample.no_repr "t.md" "out" Sample.cfg_no_title Sample.world))
     = 0%Z.
Proof. repeat split; run_sample. Qed.

(** C10, witness: both tools work. *)
Lemma generate_archive_path_witness :
  spawned (snd (generate_cmd Sample.no_repr Sample.tools_work Sample.md5
                             "report.md" "out" Sample.cfg Sample.world))
  = spawned Sample.world
    ++ [Sample.converter_args;
        ["7z"; "a";
         path_str (archive_path "out" (joinpath (Path "out") "report.pdf"));
         path_str (joinpath (Path "out") "report.pdf")]]
  /\ parent (archive_path "out" (joinpath (Path "out") "report.pdf")) = Path "out"
  /\ name (archive_path "out" (joinpath (Path "out") "report.pdf"))
     = stem (joinpath (Path "out") "report.pdf") +:+ ".7z"
  /\ forall base ext,
       "report.pdf" = base +:+ "." +:+ ext -> Str.mem "/" "report.pdf" = false ->
       base <> "" -> ext <> "" -> Str.mem "." ext = false ->
       name (archive_path "out" (joinpath (Path "out") "report.pdf")) = base +:+ ".7z".
Proof.
  apply (generate_archive_path Sample.no_repr Sample.tools_work Sample.md5
           "report.md" "out" "report.pdf" Sample.cfg
           (PDict [(PStr "pdf_name", PStr "report.pdf"); (PStr "archive", PBool true)])
           (PBool true) Sample.world
           (List.map PStr Sample.converter_args) Sample.converter_args Sample.with_pdf);
    run_sample.
Defined.

Example archive_path_sample :
  path_str (archive_path "out" (joinpath (Path "out") "report.pdf")) = "out/report.7z"
  /\ path_str (archive_path "out" (joinpath (Path "out") "sub/a.tar.gz")) = "out/a.tar.7z"
  /\ path_str (archive_path "out" (joinpath (Path "out") "plain")) = "out/plain.7z".
Proof. repeat split; reflexivity. Qed.

(** * Further properties of the program *)

Section ReporterMore.
Import Str StrFacts PathFacts FsFacts.

Variable py_repr : pyval -> string.
Variable safe_load : string -> option pyval.
Variable spawn : list string -> gmap string node -> completed.
Variable md5_hexdigest : string -> string.

(** ** [init] *)

Lemma made_keeps (output : string) (w : World) (k : string) :
  ~ In k (lineage (Path output)) -> made output w !! k = fs w !! k.
Proof. apply with_dirs_out. Qed.

Lemma stat_none (m : gmap string node) (p : PurePath) :
  stat m p = None -> parts p <> [] /\ m !! path_str p = None.
Proof. unfold stat. destruct (parts p); [done|]. by split. Qed.

(** X1: when the template path names nothing, and is not the output
    directory or one of its ancestors (which [init] creates first),
    [init] prints the not-found message and raises [SystemExit(1)]; the
    output directory has been created by then, and nothing else was
    done. *)
Theorem init_template_not_found (template output : string) (cfg : pyval) (w : World) :
  List.existsb (is_file (fs w)) (lineage (Path output)) = false ->
  stat (fs w) (Path template) = None ->
  ~ In (path_str (Path template)) (lineage (Path output)) ->
  init_cmd py_repr template output cfg w
  = (inl (SystemExit 1),
     after w (made output w) ["[!] Template not found: " +:+ path_str (Path template)] []).
Proof.
  intros Hmk Hnone Hout. destruct (stat_none _ _ Hnone) as [Hparts Hlook].
  unfold init_cmd. cbv zeta.
  rewrite (bind_ok _ _ _ _ _ (mkdir_ok _ _ Hmk)). fold (made output w).
  rewrite bind_run. unfold exists_. cbn [fs set_fs].
  rewrite (stat_lookup _ _ Hparts), made_keeps, Hlook by done.
  cbn [negb]. rewrite !bind_run. unfold print, sys_exit, raise, after. cbn.
  by rewrite List.app_nil_r.
Qed.

(** X3: when the template already is the file [init] would write, the
    copy is refused with [SameFileError]: the output directory exists,
    the template is left as it was, unstamped, and nothing is printed. *)
Theorem init_same_file
    (template output : string) (writable : bool) (content : string) (cfg : pyval) (w : World) :
  List.existsb (is_file (fs w)) (lineage (Path output)) = false ->
  stat (fs w) (Path template) = Some (File writable content) ->
  path_str (Path template) = path_str (init_target template output) ->
  init_cmd py_repr template output cfg w = (inl SameFileError, after w (made output w) [] [])
  /\ made output w !! path_str (Path template) = Some (File writable content).
Proof.
  intros Hmk Htpl Hsame.
  destruct (stat_file _ _ _ _ Htpl) as [Hparts Hfile].
  destruct (init_target_child _ _ _ _ Htpl) as [Hc Hs].
  assert (Hkeep : made output w !! path_str (Path template) = Some (File writable content)).
  { rewrite made_keeps; [done|].
    intros Hin. rewrite <- Bool.not_true_iff_false in Hmk. apply Hmk.
    apply List.existsb_exists. eexists. split; [exact Hin|].
    unfold is_file. by rewrite Hfile. }
  split; [|done].
  assert (Htparts : parts (init_target template output) <> []).
  { unfold init_target. rewrite joinpath_component by done. cbn [parts].
    intros E. by apply app_eq_nil in E as [_ ?]. }
  unfold init_cmd. cbv zeta.
  rewrite (bind_ok _ _ _ _ _ (mkdir_ok _ _ Hmk)). fold (made output w).
  rewrite bind_run. unfold exists_. cbn [fs set_fs].
  rewrite (stat_lookup _ _ Hparts), Hkeep.
  cbn [negb]. rewrite bind_run. cbn [mret M_ret].
  fold (init_target template output).
  rewrite bind_run. unfold shutil_copy, is_dir. cbn [fs set_fs].
  rewrite (stat_lookup _ _ Htparts), <- Hsame, Hkeep.
  rewrite Hsame, String.eqb_refl. unfold after. cbn.
  by rewrite !List.app_nil_r.
Qed.

(** X6: when the config is not a mapping (an empty file is loaded as
    [None]) or its [metadata] is not a mapping, [init] fails on the
    lookup with [TypeError] or [AttributeError] once the template is
    copied: the copy is left unstamped, with the template's permission,
    nothing is printed, and the process would end with status [1]. *)
Theorem init_leaves_unstamped_copy
    (template output : string) (writable : bool) (content : string)
    (cfg : pyval) (w : World) (e : exn) :
  init_ready_mode w template output writable content ->
  ((forall items, cfg <> PDict items) /\ e = TypeError)
  \/ (exists md, subscript cfg "metadata" = inr md
                 /\ (forall items, md <> PDict items) /\ e = AttributeError) ->
  init_cmd py_repr template output cfg w
  = (inl e,
     after w (<[path_str (init_target template output) := File writable content]>
                (made output w))
           [] [])
  /\ exit_status (inl e) = 1%Z.
Proof.
  intros Hready H. rewrite (init_cmd_run_mode _ _ _ _ _ _ _ Hready).
  assert (E : replacements cfg (clock w) = inl e).
  { unfold replacements, and_then.
    destruct H as [[H ->]|(md & Hmd & H & ->)].
    - destruct cfg; try done. by destruct (H items).
    - rewrite Hmd. destruct md; try done. by destruct (H items). }
  rewrite E. unfold after. rewrite !List.app_nil_r.
  split; [done|]. by destruct H as [[_ ->]|(? & _ & _ & ->)].
Qed.

(** The title line under any title value whose stamped line holds no
    later pattern. *)
Lemma substitute_title_value (v a d : pyval) :
  contains author_ph (stamped "title" (py_str py_repr v)) = false ->
  contains date_ph (stamped "title" (py_str py_repr v)) = false ->
  substitute py_repr [("title", v); ("author", a); ("date", d)] title_ph
  = stamped "title" (py_str py_repr v).
Proof.
  intros Ha Hd. rewrite substitute_three.
  rewrite (replace_exact title_ph) by done.
  by rewrite (replace_absent author_ph), (replace_absent date_ph).
Qed.

(** X7: the default of [.get] applies to a missing key only.  When
    [title] is present with a null or boolean value, [init] stamps the
    title line with [None], [True] or [False], as [str()] shows the
    value. *)
Theorem init_stamps_null_title
    (w : World) (template output content : string)
    (cfg v : pyval) (md : list (pyval * pyval)) (ls : list string) :
  init_ready w template output content ->
  universal_newlines content = join newline ls ->
  In title_ph ls ->
  subscript cfg "metadata" = inr (PDict md) ->
  dict_lookup md "title" = Some v ->
  v = PNone \/ v = PBool true \/ v = PBool false ->
  exists out : list string,
    fst (init_cmd py_repr template output cfg w) = inr tt
    /\ fs (snd (init_cmd py_repr template output cfg w)) !! path_str (init_target template output)
       = Some (File true (join newline out))
    /\ In (stamped "title" (match v with
                             | PNone => "None"
                             | PBool true => "True"
                             | _ => "False"
                             end)) out.
Proof.
  intros Hready Hls Hin Hmd Hv Hcase.
  rewrite (init_cmd_run _ _ _ _ _ _ Hready), (replacements_dict _ _ _ Hmd), Hv.
  cbn [fst snd fs].
  set (a := default (PStr "") (dict_lookup md "author")).
  set (d := PStr (isoformat (clock w))).
  destruct (substitute_lines py_repr v a d _ _ Hls) as (E & _ & _).
  exists (List.map (substitute py_repr [("title", v); ("author", a); ("date", d)]) ls).
  split; [done|]. split; [rewrite lookup_insert_eq; do 2 f_equal; exact E|].
  apply List.in_map_iff. exists title_ph. split; [|done].
  destruct Hcase as [->|[->| ->]].
  - by apply (substitute_title_value PNone a d).
  - by apply (substitute_title_value (PBool true) a d).
  - by apply (substitute_title_value (PBool false) a d).
Qed.

Lemma not_file_in_lineage (output : string) (w : World) (k : string) (b : bool) (c : string) :
  List.existsb (is_file (fs w)) (lineage (Path output)) = false ->
  fs w !! k = Some (File b c) -> ~ In k (lineage (Path output)).
Proof.
  intros Hmk Hfile Hin. rewrite <- Bool.not_true_iff_false in Hmk. apply Hmk.
  apply List.existsb_exists. exists k. split; [done|].
  unfold is_file. by rewrite Hfile.
Qed.

(** Creating the directories again, around a file that is not one of
    them, changes nothing. *)
Lemma with_dirs_again (keys : list string) (m : gmap string node) (t : string) (x : node) :
  ~ In t keys ->
  <[t := x]> (with_dirs keys (<[t := x]> (with_dirs keys m))) = <[t := x]> (with_dirs keys m).
Proof.
  intros Ht. apply map_eq. intros k.
  destruct (decide (t = k)) as [->|Hne]; [by rewrite !lookup_insert_eq|].
  rewrite !lookup_insert_ne by done.
  destruct (List.in_dec String.string_dec k keys) as [Hin|Hout].
  - by rewrite !with_dirs_in.
  - rewrite (with_dirs_out keys (<[t := x]> _)) by done. by rewrite lookup_insert_ne.
Qed.

(** After [init] the file system is ready for [init] again. *)
Lemma init_ready_again (template output content : string) (w : World) (x : string) :
  init_ready w template output content ->
  init_ready (set_fs w (<[path_str (init_target template output) := File true x]>
                          (made output w)))
             template output content.
Proof.
  intros (Hmk & Htpl & Hne & Hnd).
  destruct (init_target_child _ _ _ _ Htpl) as [Hc Hs].
  destruct (stat_file _ _ _ _ Htpl) as [Hparts Hfile].
  pose proof (child_not_in_lineage (Path output) _ Hc Hs) as Hchild.
  fold (init_target template output) in Hchild.
  repeat split; cbn [fs set_fs].
  - apply Bool.not_true_iff_false. intros E.
    apply List.existsb_exists in E as (k & Hin & Hk).
    unfold is_file in Hk. rewrite lookup_insert_ne in Hk by (by intros <-).
    unfold made in Hk. by rewrite with_dirs_in in Hk.
  - rewrite (stat_lookup _ _ Hparts), lookup_insert_ne by done.
    rewrite made_keeps; [done|]. by eapply not_file_in_lineage.
  - done.
  - unfold writable_or_absent. by rewrite lookup_insert_eq.
Qed.

(** X2: running [init] a second time, with the same arguments and on the
    same day, succeeds again and leaves the file system exactly as the
    first run left it: the copy is overwritten with the same stamped
    text. *)
Theorem init_twice
    (w : World) (template output content : string)
    (cfg : pyval) (md : list (pyval * pyval)) :
  init_ready w template output content ->
  subscript cfg "metadata" = inr (PDict md) ->
  fst (init_cmd py_repr template output cfg w) = inr tt
  /\ fst (init_cmd py_repr template output cfg
                   (snd (init_cmd py_repr template output cfg w))) = inr tt
  /\ fs (snd (init_cmd py_repr template output cfg
                       (snd (init_cmd py_repr template output cfg w))))
     = fs (snd (init_cmd py_repr template output cfg w)).
Proof.
  intros Hready Hmd.
  rewrite (init_cmd_run _ _ _ _ _ _ Hready), (replacements_dict _ _ _ Hmd).
  cbn [fst snd]. split; [done|].
  set (reps := [("title", _); _; _]).
  set (x := substitute py_repr reps (universal_newlines content)).
  set (t := path_str (init_target template output)).
  pose proof (init_ready_again _ _ _ _ x Hready) as Hagain. fold t in Hagain.
  match goal with
  | |- context [init_cmd _ _ _ _ ?w1] =>
      replace (init_cmd py_repr template output cfg w1)
        with (init_cmd py_repr template output cfg
                (after (set_fs w (<[t := File true x]> (made output w)))
                       (<[t := File true x]> (made output w))
                       ["[+] Template copied to " +:+ t;
                        "[+] Edit the Markdown file, then run `generate`"] []))
        by (unfold after; cbn; by rewrite List.app_nil_r)
  end.
  assert (Hagain' : init_ready
            (after (set_fs w (<[t := File true x]> (made output w)))
                   (<[t := File true x]> (made output w))
                   ["[+] Template copied to " +:+ t;
                    "[+] Edit the Markdown file, then run `generate`"] [])
            template output content) by exact Hagain.
  rewrite (init_cmd_run _ _ _ _ _ _ Hagain'), (replacements_dict _ _ _ Hmd).
  cbn [fst snd fs clock after set_fs]. fold reps x t. split; [done|].
  unfold made. cbn [fs].
  apply with_dirs_again.
  destruct Hready as (_ & Htpl & _ & _).
  destruct (init_target_child _ _ _ _ Htpl) as [Hc Hs].
  by apply child_not_in_lineage.
Qed.

(** *** What [init] leaves alone *)

Lemma keeps_bind {A B : Type} (k : string) (m : M A) (f : A -> M B) :
  keeps k m -> (forall x, keeps k (f x)) -> keeps k (m ≫= f).
Proof.
  intros Hm Hf w. rewrite bind_run. specialize (Hm w).
  destruct (m w) as [[e|x] w']; cbn [snd] in *; [done|]. by rewrite Hf.
Qed.

Lemma keeps_open_read (k : string) (p : PurePath) : keeps k (open_read p).
Proof. intros w. unfold open_read. by destruct (stat (fs w) p) as [[]|]. Qed.

Lemma keeps_st_mode (k : string) (p : PurePath) : keeps k (st_mode p).
Proof. intros w. unfold st_mode. by destruct (stat (fs w) p) as [[]|]. Qed.

Lemma keeps_open_write (k : string) (p : PurePath) (c : string) :
  k <> path_str p -> keeps k (open_write p c).
Proof.
  intros Hk w. unfold open_write.
  destruct (stat (fs w) p) as [[[] ?|]|]; cbn; [by rewrite lookup_insert_ne|done|done|].
  destruct (stat (fs w) (parent p)) as [[]|]; cbn; [done|by rewrite lookup_insert_ne|done].
Qed.

Lemma keeps_chmod (k : string) (p : PurePath) (b : bool) :
  k <> path_str p -> keeps k (chmod p b).
Proof.
  intros Hk w. unfold chmod.
  destruct (stat (fs w) p) as [[]|]; cbn; [by rewrite lookup_insert_ne|done|done].
Qed.

(** The copy writes nothing but its target. *)
Lemma shutil_copy_other (src dst : PurePath) (w : World) (k : string) :
  k <> path_str (if is_dir (fs w) dst then joinpath dst (name src) else dst) ->
  fs (snd (shutil_copy src dst w)) !! k = fs w !! k.
Proof.
  intros Hk. unfold shutil_copy. cbv zeta.
  destruct (String.eqb _ _); [done|].
  apply keeps_bind; [apply keeps_open_read|intros content].
  apply keeps_bind; [by apply keeps_open_write|intros _].
  apply keeps_bind; [apply keeps_st_mode|intros mode]. by apply keeps_chmod.
Qed.

(** The copy never writes over its source. *)
Lemma shutil_copy_keeps_source (src dst : PurePath) (w : World) :
  fs (snd (shutil_copy src dst w)) !! path_str src = fs w !! path_str src.
Proof.
  destruct (String.eqb_spec (path_str src)
              (path_str (if is_dir (fs w) dst then joinpath dst (name src) else dst)))
    as [E|Hne]; [|by apply shutil_copy_other].
  unfold shutil_copy. cbv zeta. by rewrite E, String.eqb_refl.
Qed.

(** Once the copy succeeded, a regular file at [dst] is not the source. *)
Lemma shutil_copy_target (src dst : PurePath) (w w2 : World) (b : bool) (c : string) :
  shutil_copy src dst w = (inr tt, w2) ->
  stat (fs w2) dst = Some (File b c) ->
  path_str dst <> path_str src.
Proof.
  intros Hcopy Hstat.
  pose proof (shutil_copy_other src dst w) as Hother.
  rewrite Hcopy in Hother. cbn [snd] in Hother.
  revert Hcopy. unfold shutil_copy. cbv zeta.
  destruct (is_dir (fs w) dst) eqn:Edir.
  2:{ destruct (String.eqb_spec (path_str src) (path_str dst)) as [|Hne]; [done|].
      intros _ E. by rewrite E in Hne. }
  (* [dst] was a directory: the copy went to [dst / name src] *)
  assert (Edst : stat (fs w) dst = Some Dir).
  { unfold is_dir in Edir. by destruct (stat (fs w) dst) as [[]|]. }
  destruct (String.eqb_spec (path_str src) (path_str (joinpath dst (name src))))
    as [|Hne]; [done|].
  intros _.
  unfold stat in Edst, Hstat. destruct (parts dst); [done|].
  destruct (decide (path_str (joinpath dst (name src)) = path_str dst)) as [E|E].
  - intros E'. apply Hne. by rewrite E, E'.
  - rewrite Hother in Hstat by congruence. by rewrite Edst in Hstat.
Qed.

Lemma replace_metadata_other (md_file : PurePath) (cfg : pyval) (w : World) (k : string) :
  (forall b c, stat (fs w) md_file = Some (File b c) -> k <> path_str md_file) ->
  fs (snd (replace_metadata py_repr md_file cfg w)) !! k = fs w !! k.
Proof.
  intros Hk. unfold replace_metadata. rewrite bind_run.
  unfold read_text. rewrite bind_run. unfold open_read.
  destruct (stat (fs w) md_file) as [[b c|]|] eqn:E; [|done|done].
  cbn [mret M_ret]. rewrite bind_run. unfold today. rewrite bind_run. unfold lift.
  destruct (replacements cfg (clock w)); [done|].
  apply keeps_open_write. by eapply Hk.
Qed.

(** X4: [init] never changes the template: whatever the config, the
    output directory and the rest of the file system, a regular file at
    the template path holds the same content, under the same permission,
    after the run, whether the run succeeds or fails. *)
Theorem init_keeps_template
    (template output : string) (writable : bool) (c : string) (cfg : pyval) (w : World) :
  fs w !! path_str (Path template) = Some (File writable c) ->
  fs (snd (init_cmd py_repr template output cfg w)) !! path_str (Path template)
  = Some (File writable c).
Proof.
  intros Hfile. unfold init_cmd. cbv zeta. rewrite bind_run.
  destruct (mkdir (Path output) w) as [[e|[]] w1] eqn:Hmk.
  { unfold mkdir in Hmk. cbv zeta in Hmk.
    repeat destruct (List.existsb _ _) in Hmk;
      first [discriminate Hmk | by injection Hmk as _ <-]. }
  assert (H1 : fs w1 !! path_str (Path template) = Some (File writable c)).
  { unfold mkdir in Hmk. cbv zeta in Hmk.
    destruct (List.existsb _ (List.removelast _)); [done|].
    destruct (List.existsb _ (lineage _)) eqn:E; [done|].
    injection Hmk as <-. cbn [fs set_fs].
    rewrite with_dirs_out; [done|]. by eapply not_file_in_lineage. }
  rewrite bind_run. unfold exists_ at 1. cbn [fst snd].
  destruct (stat (fs w1) (Path template)) as [n|]; cbn [negb];
    [|by rewrite !bind_run].
  rewrite bind_run. cbn [mret M_ret]. rewrite bind_run.
  pose proof (shutil_copy_keeps_source (Path template)
                (joinpath (Path output) (name (Path template))) w1) as H2.
  destruct (shutil_copy _ _ w1) as [[e|[]] w2] eqn:Hcopy; cbn [snd] in *;
    [by rewrite H2|].
  rewrite bind_run.
  pose proof (replace_metadata_other (joinpath (Path output) (name (Path template)))
                cfg w2 (path_str (Path template))) as H3.
  destruct (replace_metadata _ _ _ w2) as [[e|[]] w3]; cbn [snd] in *.
  - rewrite H3, H2; [done|]. intros b' c' Hc' E.
    by apply (shutil_copy_target _ _ _ _ _ _ Hcopy Hc').
  - rewrite !bind_run. unfold print. cbn [fs snd]. rewrite H3, H2; [done|].
    intros b' c' Hc' E. by apply (shutil_copy_target _ _ _ _ _ _ Hcopy Hc').
Qed.

(** *** What [init] never runs *)

Lemma quiet_bind {A B : Type} (m : M A) (f : A -> M B) :
  quiet m -> (forall x, quiet (f x)) -> quiet (m ≫= f).
Proof.
  intros Hm Hf w. rewrite bind_run. specialize (Hm w).
  destruct (m w) as [[e|x] w']; cbn [snd] in *; [done|]. by rewrite Hf.
Qed.

Lemma quiet_print (line : string) : quiet (print line).
Proof. done. Qed.

Lemma quiet_raise {A : Type} (e : exn) : quiet (raise (A := A) e).
Proof. done. Qed.

Lemma quiet_ret {A : Type} (x : A) : quiet (mret x).
Proof. done. Qed.

Lemma quiet_lift {A : Type} (r : result A) : quiet (lift r).
Proof. done. Qed.

Lemma quiet_mkdir (p : PurePath) : quiet (mkdir p).
Proof. intros w. unfold mkdir. cbv zeta. by repeat destruct (List.existsb _ _). Qed.

Lemma quiet_open_read (p : PurePath) : quiet (open_read p).
Proof. intros w. unfold open_read. by destruct (stat (fs w) p) as [[]|]. Qed.

Lemma quiet_open_write (p : PurePath) (c : string) : quiet (open_write p c).
Proof.
  intros w. unfold open_write.
  destruct (stat (fs w) p) as [[[] ?|]|]; [done|done|done|].
  by destruct (stat (fs w) (parent p)) as [[]|].
Qed.

Lemma quiet_st_mode (p : PurePath) : quiet (st_mode p).
Proof. intros w. unfold st_mode. by destruct (stat (fs w) p) as [[]|]. Qed.

Lemma quiet_chmod (p : PurePath) (b : bool) : quiet (chmod p b).
Proof. intros w. unfold chmod. by destruct (stat (fs w) p) as [[]|]. Qed.

Lemma quiet_open_text (path : string) : quiet (open_text path).
Proof.
  intros w. unfold open_text. destruct path; [done|].
  destruct (stat (fs w) _) as [[]|]; [|done|done]. by destruct (names_directory _).
Qed.

Lemma quiet_read_text (p : PurePath) : quiet (read_text p).
Proof. apply quiet_bind; [apply quiet_open_read|intros; apply quiet_ret]. Qed.

Lemma quiet_shutil_copy (src dst : PurePath) : quiet (shutil_copy src dst).
Proof.
  intros w. unfold shutil_copy. cbv zeta. destruct (String.eqb _ _); [done|].
  apply quiet_bind; [apply quiet_open_read|intros content].
  apply quiet_bind; [apply quiet_open_write|intros _].
  apply quiet_bind; [apply quiet_st_mode|intros mode]. apply quiet_chmod.
Qed.

Lemma quiet_replace_metadata (md_file : PurePath) (cfg : pyval) :
  quiet (replace_metadata py_repr md_file cfg).
Proof.
  unfold replace_metadata.
  apply quiet_bind; [apply quiet_read_text|intros text].
  apply quiet_bind; [done|intros d].
  apply quiet_bind; [apply quiet_lift|intros reps]. apply quiet_open_write.
Qed.

Lemma quiet_init_cmd (template output : string) (cfg : pyval) :
  quiet (init_cmd py_repr template output cfg).
Proof.
  unfold init_cmd. cbv zeta.
  apply quiet_bind; [apply quiet_mkdir|intros _].
  apply quiet_bind; [done|intros found].
  apply quiet_bind.
  { destruct found; cbn [negb]; [apply quiet_ret|].
    apply quiet_bind; [apply quiet_print|intros; apply quiet_raise]. }
  intros _. apply quiet_bind; [apply quiet_shutil_copy|intros _].
  apply quiet_bind; [apply quiet_replace_metadata|intros _].
  apply quiet_bind; [apply quiet_print|intros; apply quiet_print].
Qed.

Lemma quiet_load_config (path : string) : quiet (load_config safe_load path).
Proof.
  intros w. unfold load_config, try_except.
  assert (Hbody : forall (m : M string),
             quiet m ->
             spawned (snd ((text ← m;
                            match safe_load text with
                            | Some cfg => mret cfg
                            | None => raise YAMLError
                            end) w)) = spawned w).
  { intros m Hm. apply (quiet_bind m); [done|].
    intros text. destruct (safe_load text); [apply quiet_ret|apply quiet_raise]. }
  match goal with
  | |- context [(?m ≫= ?f) w] =>
      specialize (Hbody m); destruct ((m ≫= f) w) as [[e|cfg] w'] eqn:E
  end; cbn [snd] in *.
  - assert (Hw' : spawned w' = spawned w) by apply Hbody, quiet_open_text.
    by destruct e.
  - apply Hbody, quiet_open_text.
Qed.

(** X5: the [init] command never starts a process: whatever the config
    path, the arguments and the file system, [main] on [init] hands no
    command line to [subprocess.run]. *)
Theorem main_init_runs_nothing (path template output : string) (w : World) :
  spawned (snd (main py_repr safe_load spawn md5_hexdigest
                     {| config := path; command := init template output |} w))
  = spawned w.
Proof.
  unfold main. cbn [config command].
  apply (quiet_bind (load_config safe_load path)); [apply quiet_load_config|].
  intros cfg. apply quiet_init_cmd.
Qed.

(** X9: when a regular file stands where the output directory or one of
    its ancestors should be, [init] and [generate] both fail on creating
    the directory, before anything is read, written, printed or run. *)
Theorem commands_blocked_output
    (template input output : string) (cfg : pyval) (w : World) :
  List.existsb (is_file (fs w)) (lineage (Path output)) = true ->
  exists e,
    (e = FileExistsError \/ e = NotADirectoryError)
    /\ init_cmd py_repr template output cfg w = (inl e, w)
    /\ generate_cmd py_repr spawn md5_hexdigest input output cfg w = (inl e, w).
Proof.
  intros H.
  assert (Hmk : exists e, (e = FileExistsError \/ e = NotADirectoryError)
                          /\ mkdir (Path output) w = (inl e, w)).
  { unfold mkdir. cbv zeta. rewrite H.
    destruct (List.existsb _ (List.removelast _)); eexists; (split; [|reflexivity]); auto. }
  destruct Hmk as (e & He & Hmk). exists e. split; [done|].
  unfold init_cmd, generate_cmd. cbv zeta.
  by rewrite !(bind_raise _ _ _ _ _ Hmk).
Qed.

(** ** The config file *)

(** X8: [load_config] handles a missing file only.  When the config path
    names a directory, names a regular file as if it were a directory
    (with a trailing slash or dot), runs through a regular file, or the
    file is not valid YAML, the error is not caught: nothing is printed,
    the world is as it was, and the process would end with status [1],
    whichever the command. *)
Theorem main_config_unreadable (path : string) (cmd : Command) (w : World) (e : exn) :
  path <> "" ->
  (stat (fs w) (Path path) = Some Dir /\ e = IsADirectoryError)
  \/ (exists writable text, stat (fs w) (Path path) = Some (File writable text)
                            /\ names_directory path = true /\ e = NotADirectoryError)
  \/ (stat (fs w) (Path path) = None /\ below_file (fs w) (Path path) = true
      /\ e = NotADirectoryError)
  \/ (exists writable text, stat (fs w) (Path path) = Some (File writable text)
                            /\ names_directory path = false
                            /\ safe_load (universal_newlines text) = None /\ e = YAMLError) ->
  main py_repr safe_load spawn md5_hexdigest {| config := path; command := cmd |} w
  = (inl e, w)
  /\ exit_status (inl e) = 1%Z.
Proof.
  intros Hne H.
  assert (Hload : load_config safe_load path w = (inl e, w)).
  { unfold load_config, try_except. destruct path as [|c path]; [done|].
    rewrite bind_run. unfold open_text, missing_error.
    destruct H as [[-> ->]|[(b & text & -> & -> & ->)|[(-> & -> & ->)
                  |(b & text & -> & -> & Hl & ->)]]]; try done.
    by rewrite Hl. }
  unfold main. cbn [config command].
  rewrite (bind_raise _ _ _ _ _ Hload).
  split; [done|].
  by destruct H as [[_ ->]|[(? & ? & _ & _ & ->)|[(_ & _ & ->)|(? & ? & _ & _ & _ & ->)]]].
Qed.

(** ** [generate] *)

(** X10: when the archive flag is missing or falsy and the converter
    exits with status zero, [generate] returns normally after the line
    that reports the PDF: the converter's command line is the only one
    run, and no archive line or digest is printed. *)
Theorem generate_without_archive
    (input output : string) (cfg : pyval) (o : list (pyval * pyval)) (w : World)
    (pdf : PurePath) (cmd : list pyval) (args : list string) (m1 : gmap string node) :
  List.existsb (is_file (fs w)) (lineage (Path output)) = false ->
  pdf_path output cfg = inr pdf ->
  pandoc_cmd py_repr input pdf cfg = inr cmd ->
  argv cmd = inr args ->
  subscript cfg "output" = inr (PDict o) ->
  truthy (default (PBool false) (dict_lookup o "archive")) = false ->
  spawn args (made output w) = Exited 0 m1 ->
  generate_cmd py_repr spawn md5_hexdigest input output cfg w
  = (inr tt,
     after w m1 ["[+] Generating PDF..."; "[+] PDF generated: " +:+ path_str pdf] [args]).
Proof.
  intros Hmk Hpdf Hcmd Hargv Ho Hflag Hconv.
  rewrite (generate_cmd_run _ _ _ _ _ _ _ _ _ _ Hmk Hpdf Hcmd Hargv), Hconv.
  cbn [Z.eqb]. cbv zeta. unfold archive_flag, and_then. rewrite Ho. cbn [get].
  destruct (dict_lookup o "archive") as [flag|];
    unfold default, from_option, id in Hflag; by rewrite Hflag.
Qed.

(** X11: when the archive flag is true and the converter succeeded, an
    archiver that cannot be started or exits with a status other than
    zero ends the run on that error: the PDF was already reported, the
    file system is what the tools left (nothing is cleaned up), and
    neither the archive path nor a digest is printed.  The output
    directory is an argument of the command line, which holds no NUL
    character. *)
Theorem generate_archiver_fails
    (input output : string) (cfg flag : pyval) (w : World)
    (pdf : PurePath) (cmd : list pyval) (args : list string) (m1 : gmap string node) :
  mem "000" output = false ->
  List.existsb (is_file (fs w)) (lineage (Path output)) = false ->
  pdf_path output cfg = inr pdf ->
  pandoc_cmd py_repr input pdf cfg = inr cmd ->
  argv cmd = inr args ->
  archive_flag cfg = inr flag ->
  truthy flag = true ->
  spawn args (made output w) = Exited 0 m1 ->
  match spawn (archive_cmd output pdf) m1 with
  | NoSuchProgram =>
      generate_cmd py_repr spawn md5_hexdigest input output cfg w
      = (inl FileNotFoundError,
         after w m1 ["[+] Generating PDF..."; "[+] PDF generated: " +:+ path_str pdf;
                     "[+] Creating archive..."]
               [args; archive_cmd output pdf])
  | Exited rc m2 =>
      rc <> 0%Z ->
      generate_cmd py_repr spawn md5_hexdigest input output cfg w
      = (inl (CalledProcessError rc),
         after w m2 ["[+] Generating PDF..."; "[+] PDF generated: " +:+ path_str pdf;
                     "[+] Creating archive..."]
               [args; archive_cmd output pdf])
  end.
Proof.
  intros Hout Hmk Hpdf Hcmd Hargv Hflag Htrue Hconv.
  rewrite (generate_cmd_run _ _ _ _ _ _ _ _ _ _ Hmk Hpdf Hcmd Hargv), Hconv.
  cbn [Z.eqb]. cbv zeta. rewrite Hflag, Htrue.
  destruct (converter_args_head _ _ _ _ _ _ Hcmd Hargv) as [_ Hnul].
  destruct (pdf_path_joinpath _ _ _ Hpdf) as (o & N & _ & _ & ->).
  rewrite archive_step_run by (done || by apply archive_path_no_nul).
  cbn [after fs].
  destruct (spawn (archive_cmd output (joinpath (Path output) N)) m1) as [|rc m2].
  - by rewrite after_after.
  - intros Hrc. apply Z.eqb_neq in Hrc. rewrite Hrc. by rewrite after_after.
Qed.

(** X12: when the archiver exits with status zero but nothing is at the
    archive path afterwards, computing the digest fails with
    [FileNotFoundError] ([NotADirectoryError] when the tools left a
    regular file where a directory of the path was): the run ends
    there, after the line that announces the archive, without printing
    a path or a digest.  The output directory is an argument of the
    command line, which holds no NUL character. *)
Theorem generate_archive_not_created
    (input output : string) (cfg flag : pyval) (w : World)
    (pdf : PurePath) (cmd : list pyval) (args : list string) (m1 m2 : gmap string node) :
  mem "000" output = false ->
  List.existsb (is_file (fs w)) (lineage (Path output)) = false ->
  pdf_path output cfg = inr pdf ->
  pandoc_cmd py_repr input pdf cfg = inr cmd ->
  argv cmd = inr args ->
  archive_flag cfg = inr flag ->
  truthy flag = true ->
  spawn args (made output w) = Exited 0 m1 ->
  spawn (archive_cmd output pdf) m1 = Exited 0 m2 ->
  stat m2 (archive_path output pdf) = None ->
  generate_cmd py_repr spawn md5_hexdigest input output cfg w
  = (inl (if below_file m2 (archive_path output pdf)
          then NotADirectoryError else FileNotFoundError),
     after w m2 ["[+] Generating PDF..."; "[+] PDF generated: " +:+ path_str pdf;
                 "[+] Creating archive..."]
           [args; archive_cmd output pdf]).
Proof.
  intros Hout Hmk Hpdf Hcmd Hargv Hflag Htrue Hconv Harch Hnone.
  rewrite (generate_cmd_run _ _ _ _ _ _ _ _ _ _ Hmk Hpdf Hcmd Hargv), Hconv.
  cbn [Z.eqb]. cbv zeta. rewrite Hflag, Htrue.
  destruct (converter_args_head _ _ _ _ _ _ Hcmd Hargv) as [_ Hnul].
  destruct (pdf_path_joinpath _ _ _ Hpdf) as (o & N & _ & _ & ->).
  rewrite archive_step_run by (done || by apply archive_path_no_nul).
  cbn [after fs].
  rewrite Harch. cbn [Z.eqb]. rewrite Hnone. by rewrite after_after.
Qed.

(** A command line is refused at its first element that is neither a
    string nor bytes, when the ones before it are accepted. *)
Lemma argv_type_error (pre : list pyval) (v : pyval) (rest : list pyval) (args : list string) :
  argv pre = inr args ->
  (forall s, v <> PStr s) -> (forall s, v <> PBytes s) ->
  argv (pre ++ v :: rest) = inl TypeError.
Proof.
  intros Hpre Hs Hb. revert args Hpre.
  induction pre as [|x pre IH]; intros args Hpre.
  - cbn [app argv]. destruct v; try reflexivity; [by destruct (Hs s)|by destruct (Hb b)].
  - cbn [app argv] in *. unfold and_then in *.
    destruct (argument x); [done|].
    destruct (argv pre) as [|tl]; [done|]. by rewrite (IH tl).
Qed.

(** X13: when the first element of the converter's command line that
    [subprocess.run] does not accept is a value of the config that is
    neither a string nor bytes (a number, a boolean, null, a list, a
    mapping), the command line is refused with [TypeError]: the
    conversion was announced, but no process is started. *)
Theorem generate_non_string_argument
    (input output : string) (cfg : pyval) (w : World) (pdf : PurePath)
    (pre : list pyval) (v : pyval) (rest : list pyval) (args : list string) :
  List.existsb (is_file (fs w)) (lineage (Path output)) = false ->
  pdf_path output cfg = inr pdf ->
  pandoc_cmd py_repr input pdf cfg = inr (pre ++ v :: rest) ->
  argv pre = inr args ->
  (forall s, v <> PStr s) ->
  (forall s, v <> PBytes s) ->
  generate_cmd py_repr spawn md5_hexdigest input output cfg w
  = (inl TypeError, after w (made output w) ["[+] Generating PDF..."] []).
Proof.
  intros Hmk Hpdf Hcmd Hpre Hs Hb.
  apply (generate_cmd_refused _ _ _ _ _ _ _ _ _ _ Hmk Hpdf Hcmd).
  by apply (argv_type_error _ _ _ args).
Qed.

(** X14: when the config is not a mapping, its [output] section is not a
    mapping, or [pdf_name] is not a string, [generate] fails with
    [TypeError] as soon as the output directory exists: nothing is
    printed and no process is started. *)
Theorem generate_bad_pdf_name (input output : string) (cfg : pyval) (w : World) :
  List.existsb (is_file (fs w)) (lineage (Path output)) = false ->
  (forall items, cfg <> PDict items)
  \/ (exists o, subscript cfg "output" = inr o /\ forall items, o <> PDict items)
  \/ (exists v, subscript2 cfg "output" "pdf_name" = inr v /\ forall s, v <> PStr s) ->
  generate_cmd py_repr spawn md5_hexdigest input output cfg w
  = (inl TypeError, after w (made output w) [] []).
Proof.
  intros Hmk H. apply generate_cmd_lookup_fails; [done|]. left.
  unfold pdf_path, subscript2, and_then in *.
  destruct H as [H|[(o & Ho & H)|(v & Hv & H)]].
  - destruct cfg; try done. by destruct (H items).
  - rewrite Ho. destruct o; try done. by destruct (H items).
  - destruct (subscript cfg "output") as [|o]; [done|]. rewrite Hv.
    destruct v; try done. by destruct (H s).
Qed.

(** *** What [generate] never writes *)

(** X16: [generate] writes no file of its own.  When the output
    directory cannot be created, it runs nothing and the file system is
    the one it found; otherwise the file system after the run is what
    the command lines it handed to [subprocess.run], run in that order
    from the file system with the output directory made, left. *)
Theorem generate_writes_through_tools (input output : string) (cfg : pyval) (w : World) :
  exists cmds,
    spawned (snd (generate_cmd py_repr spawn md5_hexdigest input output cfg w))
    = spawned w ++ cmds
    /\ (if List.existsb (is_file (fs w)) (lineage (Path output))
        then cmds = []
             /\ fs (snd (generate_cmd py_repr spawn md5_hexdigest input output cfg w)) = fs w
        else fs (snd (generate_cmd py_repr spawn md5_hexdigest input output cfg w))
             = replay spawn cmds (made output w)).
Proof.
  destruct (List.existsb (is_file (fs w)) (lineage (Path output))) eqn:Hmk.
  { exists [].
    destruct (generate_cmd_blocked py_repr spawn md5_hexdigest input output cfg w Hmk)
      as [e ->].
    cbn. by rewrite List.app_nil_r. }
  unfold generate_cmd. cbv zeta.
  rewrite (bind_ok _ _ _ _ _ (mkdir_ok _ _ Hmk)). fold (made output w).
  match goal with
  | |- context [spawned (snd (?c (set_fs w (made output w))))] =>
      assert (H : through_tools spawn c)
  end.
  { apply through_tools_bind; [by apply through_tools_still|intros pdf].
    apply through_tools_bind; [by apply through_tools_still|intros cmd].
    apply through_tools_bind; [apply through_tools_print|intros _].
    apply through_tools_bind; [apply through_tools_run|intros _].
    apply through_tools_bind; [apply through_tools_print|intros _].
    apply through_tools_bind; [by apply through_tools_still|intros flag].
    destruct (truthy flag); [|by apply through_tools_still].
    apply through_tools_archive_step. }
  destruct (H (set_fs w (made output w))) as (cmds & Hs & Hf). by exists cmds.
Qed.

(** X15: when the input, the PDF path and the four values that go into
    the command line are strings without a NUL character (and so is the
    text of the depth, when a table of contents is asked for), the
    command line is accepted whatever the other options are: it is the
    fourteen fixed arguments, then the table-of-contents options when
    [toc] is truthy, with the depth as [str()] shows it and [6] when it
    is missing, then [--number-sections] when that flag is truthy. *)
Theorem pandoc_command_line
    (input t h r d : string) (pdf : PurePath) (cfg : pyval) (pc : list (pyval * pyval)) :
  subscript cfg "pandoc" = inr (PDict pc) ->
  dict_lookup pc "template" = Some (PStr t) ->
  dict_lookup pc "highlight_style" = Some (PStr h) ->
  subscript2 cfg "paths" "resource_path" = inr (PStr r) ->
  dict_lookup pc "top_level_division" = Some (PStr d) ->
  Forall (fun s => mem "000" s = false) [input; path_str pdf; t; h; r; d] ->
  (truthy (default (PBool false) (dict_lookup pc "toc")) = true ->
   mem "000" (py_str py_repr (default (PInt 6) (dict_lookup pc "toc_depth"))) = false) ->
  exists cmd,
    pandoc_cmd py_repr input pdf cfg = inr cmd
    /\ argv cmd
       = inr (["pandoc"; input; "-o"; path_str pdf;
               "--from"; "markdown+yaml_metadata_block+raw_html";
               "--template"; t; "--highlight-style"; h;
               "--resource-path"; r; "--top-level-division"; d]
              ++ (if truthy (default (PBool false) (dict_lookup pc "toc"))
                  then ["--table-of-contents"; "--toc-depth";
                        py_str py_repr (default (PInt 6) (dict_lookup pc "toc_depth"))]
                  else [])
              ++ (if truthy (default (PBool false) (dict_lookup pc "number_sections"))
                  then ["--number-sections"] else []))
    /\ (dict_lookup pc "toc_depth" = None ->
        py_str py_repr (default (PInt 6) (dict_lookup pc "toc_depth")) = "6").
Proof.
  intros Hpc Ht Hh Hr Hd Hnul Hdepth.
  repeat (apply Forall_cons in Hnul as [? Hnul]). clear Hnul.
  unfold pandoc_cmd, subscript2, and_then in *. rewrite Hpc.
  cbn [subscript get]. rewrite Ht, Hh, Hd.
  destruct (subscript cfg "paths") as [|ps]; [done|]. rewrite Hr.
  destruct (dict_lookup pc "toc") as [toc|], (dict_lookup pc "toc_depth") as [depth|],
           (dict_lookup pc "number_sections") as [ns|]; unfold default, from_option, id in *;
    repeat match goal with
           | |- context [truthy ?v] =>
               let E := fresh "E" in destruct (truthy v) eqn:E
           end;
    try specialize (Hdepth eq_refl);
    (eexists; split; [reflexivity|]; split; [|done]);
    cbn [argv app]; rewrite !argument_str by done; reflexivity.
Qed.

End ReporterMore.

(** * The further properties on sample inputs *)

(** X1, witness: a template path that names nothing. *)
Lemma init_template_not_found_witness :
  init_cmd Sample.no_repr "missing.md" "out" Sample.cfg Sample.world
  = (inl (SystemExit 1),
     after Sample.world (made "out" Sample.world)
           ["[!] Template not found: " +:+ path_str (Path "missing.md")] []).
Proof.
  apply (init_template_not_found Sample.no_repr "missing.md" "out" Sample.cfg Sample.world);
    [run_sample | run_sample |].
  vm_compute. intros [H|[]]. discriminate H.
Defined.

(** X2, witness: the sample template, twice. *)
Lemma init_twice_witness :
  fst (init_cmd Sample.no_repr "t.md" "out" Sample.cfg Sample.world) = inr tt
  /\ fst (init_cmd Sample.no_repr "t.md" "out" Sample.cfg
                   (snd (init_cmd Sample.no_repr "t.md" "out" Sample.cfg Sample.world)))
     = inr tt
  /\ fs (snd (init_cmd Sample.no_repr "t.md" "out" Sample.cfg
                       (snd (init_cmd Sample.no_repr "t.md" "out" Sample.cfg Sample.world))))
     = fs (snd (init_cmd Sample.no_repr "t.md" "out" Sample.cfg Sample.world)).
Proof.
  apply (init_twice Sample.no_repr Sample.world "t.md" "out"
           (Str.join newline Sample.template_lines) Sample.cfg
           [(PStr "title", PStr "T"); (PStr "author", PStr "A")]);
    [exact sample_init_ready | run_sample].
Defined.

(** X3, witness: the template is in the output directory. *)
Lemma init_same_file_witness :
  init_cmd Sample.no_repr "out/t.md" "out" Sample.cfg Sample2.inplace_world
  = (inl SameFileError, after Sample2.inplace_world (made "out" Sample2.inplace_world) [] [])
  /\ made "out" Sample2.inplace_world !! path_str (Path "out/t.md")
     = Some (File true (Str.join newline Sample.template_lines)).
Proof.
  apply (init_same_file Sample.no_repr "out/t.md" "out" true
           (Str.join newline Sample.template_lines) Sample.cfg Sample2.inplace_world);
    run_sample.
Defined.

(** X4, witness: a template the process may not write, after a run. *)
Lemma init_keeps_template_witness :
  fs (snd (init_cmd Sample.no_repr "t.md" "out" Sample.cfg Sample2.read_only_world))
    !! path_str (Path "t.md")
  = Some (File false (Str.join newline Sample.template_lines)).
Proof.
  apply (init_keeps_template Sample.no_repr "t.md" "out" false
           (Str.join newline Sample.template_lines) Sample.cfg Sample2.read_only_world).
  run_sample.
Defined.

(** X6, witness: an empty config file, loaded as [None]. *)
Lemma init_leaves_unstamped_copy_witness :
  init_cmd Sample.no_repr "t.md" "out" PNone Sample.world
  = (inl TypeError,
     after Sample.world
           (<[path_str (init_target "t.md" "out")
              := File true (Str.join newline Sample.template_lines)]> (made "out" Sample.world))
           [] [])
  /\ exit_status (inl TypeError) = 1%Z.
Proof.
  apply (init_leaves_unstamped_copy Sample.no_repr "t.md" "out" true
           (Str.join newline Sample.template_lines) PNone Sample.world TypeError);
    [exact sample_init_ready|].
  left. split; [discriminate|reflexivity].
Defined.

(** X7, witness: a null title. *)
Lemma init_stamps_null_title_witness :
  exists out : list string,
    fst (init_cmd Sample.no_repr "t.md" "out" Sample2.cfg_null_title Sample.world) = inr tt
    /\ fs (snd (init_cmd Sample.no_repr "t.md" "out" Sample2.cfg_null_title Sample.world))
         !! path_str (init_target "t.md" "out")
       = Some (File true (Str.join newline out))
    /\ In (stamped "title" "None") out.
Proof.
  apply (init_stamps_null_title Sample.no_repr Sample.world "t.md" "out"
           (Str.join newline Sample.template_lines) Sample2.cfg_null_title PNone
           [(PStr "title", PNone); (PStr "author", PStr "A")] Sample.template_lines);
    [exact sample_init_ready | run_sample ..].
Defined.

(** X8, witness: the config path names a directory. *)
Lemma main_config_unreadable_witness :
  main Sample.no_repr Sample.load Sample.tools_work Sample.md5
       {| config := "conf"; command := init "t.md" "out" |} Sample2.dir_config_world
  = (inl IsADirectoryError, Sample2.dir_config_world)
  /\ exit_status (inl IsADirectoryError) = 1%Z.
Proof.
  apply (main_config_unreadable Sample.no_repr Sample.load Sample.tools_work Sample.md5
           "conf" (init "t.md" "out") Sample2.dir_config_world IsADirectoryError);
    [discriminate|].
  left. split; run_sample.
Defined.

(** X9, witness: a regular file named like the output directory. *)
Lemma commands_blocked_output_witness :
  exists e,
    (e = FileExistsError \/ e = NotADirectoryError)
    /\ init_cmd Sample.no_repr "t.md" "out" Sample.cfg Sample2.blocked_world
       = (inl e, Sample2.blocked_world)
    /\ generate_cmd Sample.no_repr Sample.tools_work Sample.md5
                    "report.md" "out" Sample.cfg Sample2.blocked_world
       = (inl e, Sample2.blocked_world).
Proof.
  apply (commands_blocked_output Sample.no_repr Sample.tools_work Sample.md5
           "t.md" "report.md" "out" Sample.cfg Sample2.blocked_world).
  run_sample.
Defined.

(** X10, witness: [archive: false]. *)
Lemma generate_without_archive_witness :
  generate_cmd Sample.no_repr Sample.tools_work Sample.md5
               "report.md" "out" Sample2.cfg_no_archive Sample.world
  = (inr tt,
     after Sample.world Sample.with_pdf
           ["[+] Generating PDF..."; "[+] PDF generated: " +:+ path_str Sample.pdf]
           [Sample.converter_args]).
Proof.
  apply (generate_without_archive Sample.no_repr Sample.tools_work Sample.md5
           "report.md" "out" Sample2.cfg_no_archive
           [(PStr "pdf_name", PStr "report.pdf"); (PStr "archive", PBool false)]
           Sample.world Sample.pdf
           (List.map PStr Sample.converter_args) Sample.converter_args Sample.with_pdf);
    run_sample.
Defined.

(** X11, witness: the archiver is not installed. *)
Lemma generate_archiver_fails_witness :
  generate_cmd Sample.no_repr Sample.archiver_missing Sample.md5
               "report.md" "out" Sample.cfg Sample.world
  = (inl FileNotFoundError,
     after Sample.world Sample.with_pdf
           ["[+] Generating PDF..."; "[+] PDF generated: " +:+ path_str Sample.pdf;
            "[+] Creating archive..."]
           [Sample.converter_args; archive_cmd "out" Sample.pdf]).
Proof.
  apply (generate_archiver_fails Sample.no_repr Sample.archiver_missing Sample.md5
           "report.md" "out" Sample.cfg (PBool true) Sample.world Sample.pdf
           (List.map PStr Sample.converter_args) Sample.converter_args Sample.with_pdf);
    run_sample.
Defined.

(** X12, witness: the archiver exits with status zero and writes nothing. *)
Lemma generate_archive_not_created_witness :
  generate_cmd Sample.no_repr Sample2.archiver_idle Sample.md5
               "report.md" "out" Sample.cfg Sample.world
  = (inl FileNotFoundError,
     after Sample.world Sample.with_pdf
           ["[+] Generating PDF..."; "[+] PDF generated: " +:+ path_str Sample.pdf;
            "[+] Creating archive..."]
           [Sample.converter_args; archive_cmd "out" Sample.pdf]).
Proof.
  apply (generate_archive_not_created Sample.no_repr Sample2.archiver_idle Sample.md5
           "report.md" "out" Sample.cfg (PBool true) Sample.world Sample.pdf
           (List.map PStr Sample.converter_args) Sample.converter_args
           Sample.with_pdf Sample.with_pdf);
    run_sample.
Defined.

(** X13, witness: [top_level_division: 1]. *)
Lemma generate_non_string_argument_witness :
  generate_cmd Sample.no_repr Sample.tools_work Sample.md5
               "report.md" "out" Sample2.cfg_int_division Sample.world
  = (inl TypeError,
     after Sample.world (made "out" Sample.world) ["[+] Generating PDF..."] []).
Proof.
  apply (generate_non_string_argument Sample.no_repr Sample.tools_work Sample.md5
           "report.md" "out" Sample2.cfg_int_division Sample.world Sample.pdf
           [PStr "pandoc"; PStr "report.md"; PStr "-o"; PStr "out/report.pdf";
            PStr "--from"; PStr "markdown+yaml_metadata_block+raw_html";
            PStr "--template"; PStr "eisvogel"; PStr "--highlight-style"; PStr "tango";
            PStr "--resource-path"; PStr "."; PStr "--top-level-division"]
           (PInt 1) []
           ["pandoc"; "report.md"; "-o"; "out/report.pdf";
            "--from"; "markdown+yaml_metadata_block+raw_html";
            "--template"; "eisvogel"; "--highlight-style"; "tango";
            "--resource-path"; "."; "--top-level-division"]);
    run_sample.
Defined.

(** X14, witness: [pdf_name: 7]. *)
Lemma generate_bad_pdf_name_witness :
  generate_cmd Sample.no_repr Sample.tools_work Sample.md5
               "report.md" "out" Sample2.cfg_int_pdf_name Sample.world
  = (inl TypeError, after Sample.world (made "out" Sample.world) [] []).
Proof.
  apply (generate_bad_pdf_name Sample.no_repr Sample.tools_work Sample.md5
           "report.md" "out" Sample2.cfg_int_pdf_name Sample.world);
    [run_sample|].
  right. right. exists (PInt 7). split; [reflexivity|discriminate].
Defined.

(** X15, witness: a table of contents without a depth, and numbered
    sections. *)
Lemma pandoc_command_line_witness :
  exists cmd,
    pandoc_cmd Sample.no_repr "report.md" Sample.pdf Sample2.cfg_toc = inr cmd
    /\ argv cmd
       = inr (["pandoc"; "report.md"; "-o"; path_str Sample.pdf;
               "--from"; "markdown+yaml_metadata_block+raw_html";
               "--template"; "eisvogel"; "--highlight-style"; "tango";
               "--resource-path"; "."; "--top-level-division"; "chapter"]
              ++ (if truthy (default (PBool false) (dict_lookup Sample2.pandoc_toc "toc"))
                  then ["--table-of-contents"; "--toc-depth";
                        py_str Sample.no_repr
                          (default (PInt 6) (dict_lookup Sample2.pandoc_toc "toc_depth"))]
                  else [])
              ++ (if truthy (default (PBool false)
                               (dict_lookup Sample2.pandoc_toc "number_sections"))
                  then ["--number-sections"] else []))
    /\ (dict_lookup Sample2.pandoc_toc "toc_depth" = None ->
        py_str Sample.no_repr (default (PInt 6) (dict_lookup Sample2.pandoc_toc "toc_depth"))
        = "6").
Proof.
  apply (pandoc_command_line Sample.no_repr "report.md" "eisvogel" "tango" "." "chapter"
           Sample.pdf Sample2.cfg_toc Sample2.pandoc_toc);
    try (repeat constructor; reflexivity); run_sample.
Defined.

Example init_read_only_template :
  init_cmd Sample.no_repr "t.md" "out" Sample.cfg Sample2.read_only_world
  = (inl PermissionError,
     after Sample2.read_only_world
       (<["out/t.md" := File false (Str.join newline Sample.template_lines)]>
          (made "out" Sample2.read_only_world)) [] []).
Proof. reflexivity. Qed.

Example command_line_with_nul :
  argv [PStr "pandoc"; PBytes "in.md"] = inr ["pandoc"; "in.md"]
  /\ argv [PStr "pandoc"; PStr (String "000" "x"); PInt 1] = inl ValueError
  /\ argv [PStr "pandoc"; PInt 1; PStr (String "000" "x")] = inl TypeError.
Proof. repeat split; reflexivity. Qed.

Example open_text_paths :
  fst (open_text "config.yml" Sample.world) = inr "metadata: ..."
  /\ fst (open_text "./config.yml" Sample.world) = inr "metadata: ..."
  /\ fst (open_text "config.yml/" Sample.world) = inl NotADirectoryError
  /\ fst (open_text "config.yml/x" Sample.world) = inl NotADirectoryError
  /\ fst (open_text "none.yml" Sample.world) = inl FileNotFoundError
  /\ fst (open_text "" Sample.world) = inl FileNotFoundError
  /\ fst (open_text "." Sample.world) = inl IsADirectoryError.
Proof. repeat split; reflexivity. Qed.

Example pandoc_command_line_toc :
  and_then (pandoc_cmd Sample.no_repr "report.md" Sample.pdf Sample2.cfg_toc) argv
  = inr (Sample.converter_args
         ++ ["--table-of-contents"; "--toc-depth"; "6"; "--number-sections"]).
Proof. reflexivity. Qed.
